(** * SensAI course scheduler: the calendar form and the saved-schedule card

    A shallow embedding of the two React components of the repository:

    - [Builder]: [CourseScheduler] of
      [src/app/school/admin/[id]/courses/[courseId]/calendar/page.tsx],
      the form that collects the scheduling constraints and shows the
      generated schedule on a calendar grid;
    - [Renderer]: [SavedScheduleCard], the card that loads the saved
      schedule and walks through it day by day.

    Each [useState] hook is a field of a state record, each event handler a
    function from state to state, and each [useEffect] a function that runs
    after the handler when one of its dependencies changed. The browser's
    [fetch], the clock and the console are the only outside world: the
    outcome of a [fetch] and the current date are arguments of the handlers,
    and [console.error] appends to a log carried with the state. *)

From Stdlib Require Import ZArith NArith Ascii String List Bool Lia Permutation.
From Stdlib Require Import OrderedTypeEx.
From stdpp Require Import base gmap strings list sorting.

Local Open Scope string_scope.
Local Open Scope list_scope.
Local Open Scope Z_scope.

(** ** Data received from the backend *)

Record ScheduleItem := {
  item_type : string;
  task_id : Z;
  milestone_id : Z;
  title : string;
  duration_minutes : Z;
  notes : option string
}.

Record ScheduleDay := {
  date : string;
  items : list ScheduleItem;
  summary : option string
}.

Record Schedule := {
  course_id : Z;
  generated_at : string;
  schedule_timezone : string;
  days : list ScheduleDay
}.

Record ApiResponse := { schedule : option Schedule }.

(** [type ProcessedSchedule = { [date: string]: ScheduleDay }] *)
Abbreviation ProcessedSchedule := (gmap string ScheduleDay).

(** ** The outside world: [fetch] and [console.error] *)

(** What [await res.json()] does. *)
Inductive JsonOutcome :=
| JsonRejects (reason : string)
| JsonResolves (data : ApiResponse).

(** What [await fetch(...)] does: it rejects (network failure), or resolves
    to a response with a status whose body is read afterwards. *)
Inductive FetchOutcome :=
| FetchRejects (reason : string)
| FetchResolves (status : Z) (body : JsonOutcome).

(** The value caught by [catch]. *)
Inductive ErrorValue :=
| NetworkFailure (reason : string)
| HttpFailure (status : Z)          (* [new Error(`Failed: ${res.status}`)] *)
| JsonFailure (reason : string).

Record LogEntry := { log_message : string; log_error : ErrorValue }.

(** [res.ok]: the status is in the range 200-299. *)
Definition res_ok (status : Z) : bool := (200 <=? status) && (status <=? 299).

(** The first three statements of both [try] blocks:
    [await fetch], [if (!res.ok) throw], [await res.json()]. *)
Definition awaitResponse (o : FetchOutcome) : ErrorValue + ApiResponse :=
  match o with
  | FetchRejects r => inl (NetworkFailure r)
  | FetchResolves status body =>
      if negb (res_ok status) then inl (HttpFailure status)
      else match body with
           | JsonRejects r => inl (JsonFailure r)
           | JsonResolves data => inr data
           end
  end.

(** [data.schedule?.days || []] *)
Definition responseDays (data : ApiResponse) : list ScheduleDay :=
  match schedule data with
  | Some sch => days sch
  | None => []
  end.

(** A call that fails: [fetch] rejects, the status is not 2xx, or reading
    the body throws. *)
Definition fetch_failed (o : FetchOutcome) : bool :=
  match awaitResponse o with
  | inl _ => true
  | inr _ => false
  end.

(** ** JavaScript helpers *)

(** [Array.prototype.includes] on numbers and on strings. *)
Definition includesZ (l : list Z) (x : Z) : bool := existsb (Z.eqb x) l.
Definition includesS (l : list string) (x : string) : bool :=
  existsb (String.eqb x) l.

(** [[...new Set(l)]]: the elements are added to the set one by one, an
    element already present is not added again, and spreading the set lists
    it in insertion order. *)
Definition setAdd (acc : list Z) (x : Z) : list Z :=
  if includesZ acc x then acc else acc ++ [x].
Definition setSpread (l : list Z) : list Z := fold_left setAdd l [].

(** [!courseId] is false exactly for a defined, non-empty string. *)
Definition truthy (o : option string) : bool :=
  match o with
  | Some s => negb (String.eqb s EmptyString)
  | None => false
  end.

(** [Array.prototype.findIndex]: the first index whose element satisfies
    [p], or -1. *)
Fixpoint findIndexFrom {A : Type} (p : A -> bool) (l : list A) (i : Z) : Z :=
  match l with
  | [] => -1
  | x :: l' => if p x then i else findIndexFrom p l' (i + 1)
  end.

Definition findIndex {A : Type} (p : A -> bool) (l : list A) : Z :=
  findIndexFrom p l 0.

(** [l[i]] for an integer [i]: [undefined] outside the array. *)
Definition index {A : Type} (l : list A) (i : Z) : option A :=
  if i <? 0 then None else l !! Z.to_nat i.

(** [Array.prototype.sort(cmp)]: the sort is stable, and for a comparator
    that is consistent on the elements of the array every stable sort
    returns the same array; it is written here as an insertion sort. An
    element goes behind a later one only when the comparator is positive. *)
Fixpoint sortInsert {A : Type} (cmp : A -> A -> Z) (x : A) (l : list A)
  : list A :=
  match l with
  | [] => [x]
  | y :: l' => if cmp x y <=? 0 then x :: y :: l' else y :: sortInsert cmp x l'
  end.

Fixpoint sort {A : Type} (cmp : A -> A -> Z) (l : list A) : list A :=
  match l with
  | [] => []
  | x :: l' => sortInsert cmp x (sort cmp l')
  end.

(** The comparison of two strings with [<], [>] and [===] goes by code
    units; on the ASCII strings of this program that is [String.compare]. *)
Definition codeUnitCompare (a b : string) : Z :=
  match String.compare a b with
  | Lt => -1
  | Eq => 0
  | Gt => 1
  end.

(** A date as the backend writes it: [yyyy-MM-dd]. *)
Definition isDigit (c : ascii) : bool :=
  ((48 <=? N_of_ascii c) && (N_of_ascii c <=? 57))%N.

Definition isISODate (s : string) : bool :=
  match list_ascii_of_string s with
  | [y1; y2; y3; y4; h1; m1; m2; h2; d1; d2] =>
      isDigit y1 && isDigit y2 && isDigit y3 && isDigit y4 &&
      Ascii.eqb h1 "-" && isDigit m1 && isDigit m2 &&
      Ascii.eqb h2 "-" && isDigit d1 && isDigit d2
  | _ => false
  end.

(** * The calendar form: [CourseScheduler] *)

Module Builder.

(** One field per [useState] hook, [courseId] from the route parameters and
    the console log. [currentDate] is the month shown on the grid, kept as
    the millisecond time stamp of the [Date]. *)
Record State := {
  courseId : option string;
  currentDate : Z;
  startDate : string;
  includeWeekends : bool;
  excludeWeekdays : list Z;
  excludeDates : list string;
  hoursPerDay : Z;
  daysPerWeek : Z;
  timezone : string;
  isLoading : bool;
  isSaving : bool;
  scheduledTasks : ProcessedSchedule;
  hoveredDate : option string;
  console : list LogEntry
}.

Definition setStartDate (v : string) (s : State) : State :=
  {| courseId := courseId s; currentDate := currentDate s; startDate := v;
     includeWeekends := includeWeekends s;
     excludeWeekdays := excludeWeekdays s; excludeDates := excludeDates s;
     hoursPerDay := hoursPerDay s; daysPerWeek := daysPerWeek s;
     timezone := timezone s; isLoading := isLoading s; isSaving := isSaving s;
     scheduledTasks := scheduledTasks s; hoveredDate := hoveredDate s;
     console := console s |}.

Definition setIncludeWeekends (v : bool) (s : State) : State :=
  {| courseId := courseId s; currentDate := currentDate s;
     startDate := startDate s; includeWeekends := v;
     excludeWeekdays := excludeWeekdays s; excludeDates := excludeDates s;
     hoursPerDay := hoursPerDay s; daysPerWeek := daysPerWeek s;
     timezone := timezone s; isLoading := isLoading s; isSaving := isSaving s;
     scheduledTasks := scheduledTasks s; hoveredDate := hoveredDate s;
     console := console s |}.

(** The setters of the two exclusion lists are only ever called with an
    updater function [prev => ...]. *)
Definition setExcludeWeekdays (f : list Z -> list Z) (s : State) : State :=
  {| courseId := courseId s; currentDate := currentDate s;
     startDate := startDate s; includeWeekends := includeWeekends s;
     excludeWeekdays := f (excludeWeekdays s); excludeDates := excludeDates s;
     hoursPerDay := hoursPerDay s; daysPerWeek := daysPerWeek s;
     timezone := timezone s; isLoading := isLoading s; isSaving := isSaving s;
     scheduledTasks := scheduledTasks s; hoveredDate := hoveredDate s;
     console := console s |}.

Definition setExcludeDates (f : list string -> list string) (s : State)
  : State :=
  {| courseId := courseId s; currentDate := currentDate s;
     startDate := startDate s; includeWeekends := includeWeekends s;
     excludeWeekdays := excludeWeekdays s; excludeDates := f (excludeDates s);
     hoursPerDay := hoursPerDay s; daysPerWeek := daysPerWeek s;
     timezone := timezone s; isLoading := isLoading s; isSaving := isSaving s;
     scheduledTasks := scheduledTasks s; hoveredDate := hoveredDate s;
     console := console s |}.

Definition setIsLoading (v : bool) (s : State) : State :=
  {| courseId := courseId s; currentDate := currentDate s;
     startDate := startDate s; includeWeekends := includeWeekends s;
     excludeWeekdays := excludeWeekdays s; excludeDates := excludeDates s;
     hoursPerDay := hoursPerDay s; daysPerWeek := daysPerWeek s;
     timezone := timezone s; isLoading := v; isSaving := isSaving s;
     scheduledTasks := scheduledTasks s; hoveredDate := hoveredDate s;
     console := console s |}.

Definition setIsSaving (v : bool) (s : State) : State :=
  {| courseId := courseId s; currentDate := currentDate s;
     startDate := startDate s; includeWeekends := includeWeekends s;
     excludeWeekdays := excludeWeekdays s; excludeDates := excludeDates s;
     hoursPerDay := hoursPerDay s; daysPerWeek := daysPerWeek s;
     timezone := timezone s; isLoading := isLoading s; isSaving := v;
     scheduledTasks := scheduledTasks s; hoveredDate := hoveredDate s;
     console := console s |}.

Definition setScheduledTasks (v : ProcessedSchedule) (s : State) : State :=
  {| courseId := courseId s; currentDate := currentDate s;
     startDate := startDate s; includeWeekends := includeWeekends s;
     excludeWeekdays := excludeWeekdays s; excludeDates := excludeDates s;
     hoursPerDay := hoursPerDay s; daysPerWeek := daysPerWeek s;
     timezone := timezone s; isLoading := isLoading s; isSaving := isSaving s;
     scheduledTasks := v; hoveredDate := hoveredDate s;
     console := console s |}.

(** [console.error(message, err)] *)
Definition consoleError (message : string) (err : ErrorValue) (s : State)
  : State :=
  {| courseId := courseId s; currentDate := currentDate s;
     startDate := startDate s; includeWeekends := includeWeekends s;
     excludeWeekdays := excludeWeekdays s; excludeDates := excludeDates s;
     hoursPerDay := hoursPerDay s; daysPerWeek := daysPerWeek s;
     timezone := timezone s; isLoading := isLoading s; isSaving := isSaving s;
     scheduledTasks := scheduledTasks s; hoveredDate := hoveredDate s;
     console := console s ++ [{| log_message := message; log_error := err |}]
  |}.

(** The [useState] initial values. *)
Definition initialState (cid : option string) (now : Z) : State :=
  {| courseId := cid; currentDate := now; startDate := EmptyString;
     includeWeekends := false; excludeWeekdays := [0; 6]; excludeDates := [];
     hoursPerDay := 2; daysPerWeek := 5; timezone := "UTC";
     isLoading := false; isSaving := false; scheduledTasks := ∅;
     hoveredDate := None; console := [] |}.

(** *** Effects *)

(** [useEffect(() => { if (!startDate) setStartDate(format(new Date(), ...)) },
    [startDate])]; [today] is the formatted current date. *)
Definition startDateEffect (today : string) (s : State) : State :=
  if String.eqb (startDate s) EmptyString then setStartDate today s else s.

Definition notWeekend (d : Z) : bool := negb (d =? 0) && negb (d =? 6).

(** The effect on [includeWeekends] (lines 96-102). *)
Definition includeWeekendsEffect (s : State) : State :=
  if includeWeekends s
  then setExcludeWeekdays (fun prev => List.filter notWeekend prev) s
  else setExcludeWeekdays (fun prev => setSpread (prev ++ [0; 6])) s.

(** After the first render every effect runs once. *)
Definition mount (today : string) (s : State) : State :=
  includeWeekendsEffect (startDateEffect today s).

(** After a handler has run, the component renders again and the effect on
    [includeWeekends] runs exactly when its dependency changed. The effect
    does not write [includeWeekends], so it does not run a second time. *)
Definition commit (before after : State) : State :=
  if Bool.eqb (includeWeekends before) (includeWeekends after)
  then after
  else includeWeekendsEffect after.

(** *** Handlers of the constraint draft *)

(** The switch: [onClick={() => setIncludeWeekends(!includeWeekends)}]. *)
Definition toggleIncludeWeekends (s : State) : State :=
  commit s (setIncludeWeekends (negb (includeWeekends s)) s).

Definition handleWeekdayToggle (dayIndex : Z) (s : State) : State :=
  let isExcluded := includesZ (excludeWeekdays s) dayIndex in
  let s1 :=
    if isExcluded && ((dayIndex =? 0) || (dayIndex =? 6))
    then setIncludeWeekends true s
    else s in
  commit s
    (setExcludeWeekdays
       (fun prev =>
          if isExcluded
          then List.filter (fun d => negb (d =? dayIndex)) prev
          else prev ++ [dayIndex])
       s1).

(** [dateStr] is [format(day, 'yyyy-MM-dd')] of the clicked cell. *)
Definition handleDateClick (dateStr : string) (s : State) : State :=
  setExcludeDates
    (fun prev =>
       if includesS prev dateStr
       then List.filter (fun d => negb (String.eqb d dateStr)) prev
       else prev ++ [dateStr])
    s.

(** *** The calendar grid (lines 238-241) *)

Definition scheduledDay (dayStr : string) (s : State) : option ScheduleDay :=
  scheduledTasks s !! dayStr.

Definition isExcluded (dayStr : string) (dayNumber : Z) (s : State) : bool :=
  includesS (excludeDates s) dayStr || includesZ (excludeWeekdays s) dayNumber.

(** *** Generate and save *)

(** [days.reduce((acc, day) => { acc[day.date] = day; return acc; }, {})] *)
Definition scheduleMap (ds : list ScheduleDay) : ProcessedSchedule :=
  fold_left (fun acc day => <[date day := day]> acc) ds ∅.

(** [handleSubmit] up to its [await]: the loading flag is raised and the
    rendered schedule is cleared. *)
Definition handleSubmit_start (s : State) : State :=
  setScheduledTasks ∅ (setIsLoading true s).

(** [handleSubmit] from the moment the request settles: the [try] body, the
    [catch] and the [finally]. *)
Definition handleSubmit_settle (o : FetchOutcome) (s : State) : State :=
  setIsLoading false
    match awaitResponse o with
    | inr data => setScheduledTasks (scheduleMap (responseDays data)) s
    | inl err => consoleError "Failed to generate schedule:" err s
    end.

Definition handleSubmit (o : FetchOutcome) (s : State) : State :=
  if negb (truthy (courseId s)) then s
  else handleSubmit_settle o (handleSubmit_start s).

Definition handlePersist_start (s : State) : State := setIsSaving true s.

Definition handlePersist_settle (o : FetchOutcome) (s : State) : State :=
  setIsSaving false
    match awaitResponse o with
    | inr data => setScheduledTasks (scheduleMap (responseDays data)) s
    | inl err => consoleError "Failed to save schedule:" err s
    end.

Definition handlePersist (o : FetchOutcome) (s : State) : State :=
  if negb (truthy (courseId s)) then s
  else handlePersist_settle o (handlePersist_start s).

(** *** Reachable states *)

(** One user action on the constraint draft. *)
Inductive toggle : State -> State -> Prop :=
| toggle_weekends s : toggle s (toggleIncludeWeekends s)
| toggle_weekday i s : toggle s (handleWeekdayToggle i s)
| toggle_date d s : toggle s (handleDateClick d s).

Inductive reachable : State -> Prop :=
| reachable_mount cid now today :
    reachable (mount today (initialState cid now))
| reachable_toggle s s' : reachable s -> toggle s s' -> reachable s'.

(** A click on a weekday button that excludes Sunday or Saturday. *)
Definition excludesWeekendDay (i : Z) (s : State) : bool :=
  ((i =? 0) || (i =? 6)) && negb (includesZ (excludeWeekdays s) i).

(** The actions without such a click. *)
Inductive toggle_keeping : State -> State -> Prop :=
| keeping_weekends s : toggle_keeping s (toggleIncludeWeekends s)
| keeping_weekday i s :
    excludesWeekendDay i s = false ->
    toggle_keeping s (handleWeekdayToggle i s)
| keeping_date d s : toggle_keeping s (handleDateClick d s).

Inductive reachable_keeping : State -> Prop :=
| keeping_mount cid now today :
    reachable_keeping (mount today (initialState cid now))
| keeping_toggle s s' :
    reachable_keeping s -> toggle_keeping s s' -> reachable_keeping s'.

(** *** The coupling between [includeWeekends] and the weekend buttons *)

Definition coupling_on (s : State) : Prop :=
  includeWeekends s = true ->
  ~ In 0 (excludeWeekdays s) /\ ~ In 6 (excludeWeekdays s).

Definition coupling_off (s : State) : Prop :=
  includeWeekends s = false ->
  In 0 (excludeWeekdays s) /\ In 6 (excludeWeekdays s).

(** Weekends switched on, then Sunday excluded with its own button. *)
Definition sundayExcludedWhileOn : State :=
  handleWeekdayToggle 0
    (toggleIncludeWeekends (mount "2025-01-06" (initialState (Some "7") 0))).

(** A form that shows one generated day. *)
Definition monday : ScheduleDay :=
  {| date := "2025-01-06"; items := []; summary := Some "Week 1" |}.

Definition showingMonday : State :=
  setScheduledTasks (scheduleMap [monday])
    (mount "2025-01-06" (initialState (Some "7") 0)).

(** *** The remaining handlers of the form *)

Definition setHoveredDate (v : option string) (s : State) : State :=
  {| courseId := courseId s; currentDate := currentDate s;
     startDate := startDate s; includeWeekends := includeWeekends s;
     excludeWeekdays := excludeWeekdays s; excludeDates := excludeDates s;
     hoursPerDay := hoursPerDay s; daysPerWeek := daysPerWeek s;
     timezone := timezone s; isLoading := isLoading s; isSaving := isSaving s;
     scheduledTasks := scheduledTasks s; hoveredDate := v;
     console := console s |}.

(** The date input under "Exclude Specific Dates" (lines 131-137);
    [dateStr] is [e.target.value]. *)
Definition handleAddExcludedDate (dateStr : string) (s : State) : State :=
  if negb (String.eqb dateStr EmptyString)
     && negb (includesS (excludeDates s) dateStr)
  then setExcludeDates (fun prev => prev ++ [dateStr]) s
  else s.

(** The cross on a chip of the excluded dates (lines 139-141). *)
Definition removeExcludedDate (dateToRemove : string) (s : State) : State :=
  setExcludeDates
    (fun prev =>
       List.filter (fun date => negb (String.eqb date dateToRemove)) prev)
    s.

(** [onMouseEnter={() => scheduledDay && setHoveredDate(dayStr)}] and
    [onMouseLeave={() => setHoveredDate(null)}] of a cell. *)
Definition handleMouseEnter (dayStr : string) (s : State) : State :=
  match scheduledDay dayStr s with
  | Some _ => setHoveredDate (Some dayStr) s
  | None => s
  end.

Definition handleMouseLeave (s : State) : State := setHoveredDate None s.

(** The detail box of a cell: [hoveredDate === dayStr && scheduledDay]. *)
Definition tooltip (dayStr : string) (s : State) : option ScheduleDay :=
  match hoveredDate s with
  | Some h => if String.eqb h dayStr then scheduledDay dayStr s else None
  | None => None
  end.

(** *** The classes of a calendar cell (lines 243-255) *)

Definition baseClass : string :=
  "relative flex items-center justify-center rounded-lg transition-all duration-200 ease-in-out h-full".
Definition todayClass : string := "bg-indigo-600/50 text-white font-bold".
Definition scheduledClass : string := "bg-green-500/20 border border-green-500".
Definition excludedClass : string := "bg-red-500/20 line-through text-slate-400".
Definition hoverClass : string := "hover:bg-slate-700 cursor-pointer".

(** [c && '...']: the class when [c] holds, a falsy value otherwise. *)
Definition classWhen (c : bool) (cls : string) : option string :=
  if c then Some cls else None.

(** [cellClasses.filter(Boolean)]; [sameMonth] and [today] are
    [isSameMonth(day, currentDate)] and [isToday(day)], [dayStr] and
    [dayNumber] the formatted date and [getDay(day)] of the cell. *)
Definition cellClasses (sameMonth today : bool) (dayStr : string)
           (dayNumber : Z) (s : State) : list string :=
  let excluded := isExcluded dayStr dayNumber s in
  omap id
    [ Some baseClass;
      Some (if sameMonth then "text-slate-50" else "text-slate-500");
      classWhen today todayClass;
      classWhen (bool_decide (is_Some (scheduledDay dayStr s)) && negb excluded)
        scheduledClass;
      classWhen excluded excludedClass;
      classWhen (negb today && negb excluded) hoverClass ].

(** *** The body of the generate request (lines 149-157) *)

(** [ScheduleRequest]; a field left [undefined] is [None]. The last field is
    [timezone] in the source. *)
Record ScheduleRequest := {
  start_date : option string;
  include_weekends : option bool;
  exclude_weekdays : option (list Z);
  exclude_dates : option (list string);
  hours_per_day : option Z;
  days_per_week : option Z;
  request_timezone : option string
}.

Definition requestBody (s : State) : ScheduleRequest :=
  {| start_date :=
       if String.eqb (startDate s) EmptyString then None
       else Some (startDate s);                 (* [startDate || undefined] *)
     include_weekends := Some (includeWeekends s);
     exclude_weekdays := Some (excludeWeekdays s);
     exclude_dates := Some (excludeDates s);
     hours_per_day := Some (hoursPerDay s);
     days_per_week := Some (daysPerWeek s);
     request_timezone := Some (timezone s) |}.

(** The start-date input, [onChange={e => setStartDate(e.target.value)}],
    followed by the effect on [startDate] when the value changed; [today] is
    the formatted current date. *)
Definition handleStartDateChange (today value : string) (s : State) : State :=
  if String.eqb (startDate s) value then s
  else startDateEffect today (setStartDate value s).

(** *** Every event of the form *)

(** The handlers above, one step each (the number inputs and the time-zone
    select are left out). A request settles at any time after it was
    started; the steps below let it settle in any state. The current date is
    always a formatted [yyyy-MM-dd] string. *)
Inductive event : State -> State -> Prop :=
| event_start_date today value s :
    isISODate today = true -> event s (handleStartDateChange today value s)
| event_weekends s : event s (toggleIncludeWeekends s)
| event_weekday i s : event s (handleWeekdayToggle i s)
| event_date d s : event s (handleDateClick d s)
| event_add_date d s : event s (handleAddExcludedDate d s)
| event_remove_date d s : event s (removeExcludedDate d s)
| event_mouse_enter d s : event s (handleMouseEnter d s)
| event_mouse_leave s : event s (handleMouseLeave s)
| event_submit_start s :
    truthy (courseId s) = true -> event s (handleSubmit_start s)
| event_submit_settle o s : event s (handleSubmit_settle o s)
| event_persist_start s :
    truthy (courseId s) = true -> event s (handlePersist_start s)
| event_persist_settle o s : event s (handlePersist_settle o s).

Inductive live : State -> Prop :=
| live_mount cid now today :
    isISODate today = true -> live (mount today (initialState cid now))
| live_event s s' : live s -> event s s' -> live s'.

(** The draft holds no duplicate and keeps the weekend days excluded while
    weekends are off. *)
Definition draftWellFormed (s : State) : Prop :=
  List.NoDup (excludeWeekdays s) /\
  List.NoDup (excludeDates s) /\
  coupling_off s /\
  startDate s <> EmptyString.

(** The draft of two states is the same. *)
Definition sameDraft (s s' : State) : Prop :=
  startDate s' = startDate s /\
  includeWeekends s' = includeWeekends s /\
  excludeWeekdays s' = excludeWeekdays s /\
  excludeDates s' = excludeDates s /\
  hoursPerDay s' = hoursPerDay s /\
  daysPerWeek s' = daysPerWeek s /\
  timezone s' = timezone s.

End Builder.

(** * The saved-schedule card: [SavedScheduleCard] *)

Module Renderer.

(** Sample data for the examples below. *)
Definition tuesday : ScheduleDay :=
  {| date := "2025-01-07"; items := []; summary := None |}.

Definition wednesday : ScheduleDay :=
  {| date := "2025-01-08"; items := []; summary := None |}.

(** A response that lists Wednesday before Tuesday. *)
Definition unsortedData : ApiResponse :=
  {| schedule :=
       Some {| course_id := 7; generated_at := "2025-01-05T10:00:00Z";
               schedule_timezone := "Asia/Kolkata";
               days := [wednesday; tuesday] |} |}.

Definition unsortedResponse : FetchOutcome :=
  FetchResolves 200 (JsonResolves unsortedData).

Record State := {
  courseId : string;
  days : list ScheduleDay;
  timezone : string;
  currentIndex : Z;
  isLoading : bool;
  console : list LogEntry
}.

Definition setDays (v : list ScheduleDay) (s : State) : State :=
  {| courseId := courseId s; days := v; timezone := timezone s;
     currentIndex := currentIndex s; isLoading := isLoading s;
     console := console s |}.

Definition setTimezone (v : string) (s : State) : State :=
  {| courseId := courseId s; days := days s; timezone := v;
     currentIndex := currentIndex s; isLoading := isLoading s;
     console := console s |}.

Definition setCurrentIndex (v : Z) (s : State) : State :=
  {| courseId := courseId s; days := days s; timezone := timezone s;
     currentIndex := v; isLoading := isLoading s; console := console s |}.

Definition setIsLoading (v : bool) (s : State) : State :=
  {| courseId := courseId s; days := days s; timezone := timezone s;
     currentIndex := currentIndex s; isLoading := v; console := console s |}.

Definition consoleError (message : string) (err : ErrorValue) (s : State)
  : State :=
  {| courseId := courseId s; days := days s; timezone := timezone s;
     currentIndex := currentIndex s; isLoading := isLoading s;
     console := console s ++ [{| log_message := message; log_error := err |}]
  |}.

Definition initialState (cid : string) : State :=
  {| courseId := cid; days := []; timezone := "UTC"; currentIndex := 0;
     isLoading := false; console := [] |}.

(** The two predicates handed to [findIndex]. *)
Definition onDate (day : string) (d : ScheduleDay) : bool :=
  String.eqb (date d) day.                          (* [d.date === day] *)
Definition afterDate (day : string) (d : ScheduleDay) : bool :=
  String.ltb day (date d).                          (* [d.date > day] *)

(** The default selection of the load effect (lines 52-57); [today] is
    [format(new Date(), "yyyy-MM-dd")]. *)
Definition initialSelection (fetchedDays : list ScheduleDay) (today : string)
  : Z :=
  let idx := findIndex (onDate today) fetchedDays in
  let idx :=
    if idx =? -1 then findIndex (afterDate today) fetchedDays else idx in
  Z.max 0 idx.

(** [data.schedule?.timezone || "UTC"] *)
Definition responseTimezone (data : ApiResponse) : string :=
  match schedule data with
  | Some sch =>
      if String.eqb (schedule_timezone sch) EmptyString then "UTC"
      else schedule_timezone sch
  | None => "UTC"
  end.

(** [const currentDay = days[currentIndex]] *)
Definition currentDay (s : State) : option ScheduleDay :=
  index (days s) (currentIndex s).

Definition canPrev (s : State) : bool := 0 <? currentIndex s.
Definition canNext (s : State) : bool :=
  currentIndex s <? Z.max 0 (Z.of_nat (length (days s)) - 1).

(** [onClick={() => canPrev && setCurrentIndex((i) => i - 1)}] *)
Definition prev (s : State) : State :=
  if canPrev s then setCurrentIndex (currentIndex s - 1) s else s.

(** [onClick={() => canNext && setCurrentIndex((i) => i + 1)}] *)
Definition next (s : State) : State :=
  if canNext s then setCurrentIndex (currentIndex s + 1) s else s.

(** The three buttons under the card (lines 141-175). [todayStr] and
    [tomorrowStr] are the formatted dates of now and of now plus 24 hours. *)
Definition goToday (todayStr : string) (s : State) : State :=
  if (length (days s) =? 0)%nat then s
  else
    let idx := findIndex (onDate todayStr) (days s) in
    setCurrentIndex (Z.max 0 (if idx =? -1 then 0 else idx)) s.

Definition goTomorrow (tomorrowStr : string) (s : State) : State :=
  if (length (days s) =? 0)%nat then s
  else
    let idx := findIndex (onDate tomorrowStr) (days s) in
    setCurrentIndex (Z.max 0 (if idx =? -1 then 0 else idx)) s.

Definition goUpcoming (todayStr : string) (s : State) : State :=
  if (length (days s) =? 0)%nat then s
  else
    let idx := findIndex (afterDate todayStr) (days s) in
    setCurrentIndex (Z.max 0 (if idx =? -1 then 0 else idx)) s.

(** What the lower part of the card shows (lines 117-138). *)
Inductive Body :=
| BodyLoading
| BodyItems (summary : option string) (items : list ScheduleItem)
| BodyNoSchedule.

Definition body (s : State) : Body :=
  if isLoading s then BodyLoading
  else match currentDay s with
       | Some d =>
           match items d with
           | [] => BodyNoSchedule
           | _ :: _ => BodyItems (summary d) (items d)
           end
       | None => BodyNoSchedule
       end.

Section Host.

(** The host's [String.prototype.localeCompare] and the date-fns call
    [format(parseISO(date), "EEE, MMM d")]. *)
Variable localeCompare : string -> string -> Z.
Variable formatDay : string -> string.

(** [.slice().sort((a, b) => a.date.localeCompare(b.date))] *)
Definition sortDays (ds : list ScheduleDay) : list ScheduleDay :=
  sort (fun a b => localeCompare (date a) (date b)) ds.

(** The load effect up to its [await] and from the moment the request
    settles. *)
Definition load_start (s : State) : State := setIsLoading true s.

Definition load_settle (today : string) (o : FetchOutcome) (s : State)
  : State :=
  setIsLoading false
    match awaitResponse o with
    | inr data =>
        let fetchedDays := sortDays (responseDays data) in
        setCurrentIndex (initialSelection fetchedDays today)
          (setTimezone (responseTimezone data) (setDays fetchedDays s))
    | inl err => consoleError "Failed to load saved schedule:" err s
    end.

Definition load (today : string) (o : FetchOutcome) (s : State) : State :=
  load_settle today o (load_start s).

(** [isToday] and [isTomorrow] of the parsed date are read off the formatted
    dates [today] and [tomorrow]: that is what they compute for a date
    written [yyyy-MM-dd] when [today] and [tomorrow] are the local dates of
    the render and of the calendar day after it. For a date string of
    another shape [parseISO] decides what it means and [format] may throw;
    the branch with a current day says nothing about such strings. *)
Definition headerLabel (today tomorrow : string) (s : State) : string :=
  match currentDay s with
  | None => "No schedule"
  | Some d =>
      if String.eqb (date d) today then "Today"
      else if String.eqb (date d) tomorrow then "Tomorrow"
      else formatDay (date d)
  end.

End Host.

(** *** Vocabulary of the statements *)

(** [k] is the first index of [l] whose entry satisfies [p]. *)
Definition firstMatch {A : Type} (p : A -> bool) (l : list A) (k : Z) : Prop :=
  0 <= k /\
  (exists d, index l k = Some d /\ p d = true) /\
  forall j d, 0 <= j < k -> index l j = Some d -> p d = false.

Definition noMatch {A : Type} (p : A -> bool) (l : list A) : Prop :=
  forall d, In d l -> p d = false.

Definition date_le (a b : ScheduleDay) : Prop :=
  String.leb (date a) (date b) = true.

Definition sortedByDate (l : list ScheduleDay) : Prop :=
  StronglySorted date_le l.

Definition allISO (l : list ScheduleDay) : Prop :=
  Forall (fun d => isISODate (date d) = true) l.

(** The comparator orders dates as their code units do. *)
Definition collatesDates (localeCompare : string -> string -> Z) : Prop :=
  forall a b,
    isISODate a = true -> isISODate b = true ->
    (localeCompare a b ?= 0) = String.compare a b.

(** The button moved the selection of [s] to the first entry that satisfies
    [p], or to the first entry of the list when none does, and changed
    nothing else. *)
Definition jumpsTo (p : ScheduleDay -> bool) (s s' : State) : Prop :=
  s' = setCurrentIndex (currentIndex s') s /\
  ((exists d, In d (days s) /\ p d = true) ->
   firstMatch p (days s) (currentIndex s')) /\
  (noMatch p (days s) -> currentIndex s' = 0).

(** The card showing the list [D] at index [k]. *)
Definition showing (D : list ScheduleDay) (k : Z) (s : State) : State :=
  setCurrentIndex k (setDays D s).

(** *** The clock *)

(** The calendar date of a day number, counted from 1970-01-01, in the
    Gregorian calendar. *)
Definition civilFromDays (z : Z) : Z * Z * Z :=
  let z := z + 719468 in
  let era := z / 146097 in
  let doe := z - era * 146097 in
  let yoe := (doe - doe / 1460 + doe / 36524 - doe / 146096) / 365 in
  let doy := doe - (365 * yoe + yoe / 4 - yoe / 100) in
  let mp := (5 * doy + 2) / 153 in
  let d := doy - (153 * mp + 2) / 5 + 1 in
  let m := if mp <? 10 then mp + 3 else mp - 9 in
  let y := yoe + era * 400 + (if m <=? 2 then 1 else 0) in
  (y, m, d).

Definition digitChar (n : Z) : ascii := ascii_of_N (Z.to_N (48 + n mod 10)).

Definition pad2 (n : Z) : string :=
  String (digitChar (n / 10)) (String (digitChar n) EmptyString).

Definition pad4 (n : Z) : string :=
  String (digitChar (n / 1000)) (String (digitChar (n / 100)) (pad2 n)).

(** The day number written [yyyy-MM-dd]. *)
Definition dateOfDay (z : Z) : string :=
  let '(y, m, d) := civilFromDays z in
  String.append (pad4 y)
    (String.append "-" (String.append (pad2 m) (String.append "-" (pad2 d)))).

Definition msPerDay : Z := 86400000.

(** The host's time zone is the offset, in milliseconds, of its local time
    from UTC at each instant; an instant is a number of milliseconds since
    the epoch, as [Date.now()] returns it. [localDay] is the number of the
    local calendar day of an instant. *)
Definition localDay (utcOffset : Z -> Z) (t : Z) : Z :=
  (t + utcOffset t) / msPerDay.

(** [format(new Date(t), "yyyy-MM-dd")] *)
Definition formatLocalDate (utcOffset : Z -> Z) (t : Z) : string :=
  dateOfDay (localDay utcOffset t).

(** The date of the calendar day after the local day of an instant. *)
Definition tomorrowDate (utcOffset : Z -> Z) (t : Z) : string :=
  dateOfDay (localDay utcOffset t + 1).

(** The three buttons with the dates they compute at the instant [now] of
    the click: [format(new Date(), ...)] for Today and Upcoming,
    [format(new Date(Date.now() + 86400000), ...)] for Tomorrow. *)
Definition clickToday (utcOffset : Z -> Z) (now : Z) (s : State) : State :=
  goToday (formatLocalDate utcOffset now) s.

Definition clickTomorrow (utcOffset : Z -> Z) (now : Z) (s : State) : State :=
  goTomorrow (formatLocalDate utcOffset (now + 86400000)) s.

Definition clickUpcoming (utcOffset : Z -> Z) (now : Z) (s : State) : State :=
  goUpcoming (formatLocalDate utcOffset now) s.

(** New York in 2025: five hours behind UTC until 9 March, 07:00 UTC, four
    hours behind until 2 November, 06:00 UTC, five hours behind after. *)
Definition newYork2025 (t : Z) : Z :=
  if t <? 1741503600000 then -18000000
  else if t <? 1762063200000 then -14400000
  else -18000000.

(** Saturday 8 March 2025, 23:30 in New York (04:30 UTC on 9 March): the
    evening before the clocks go forward. *)
Definition eveOfShortDay : Z := 1741494600000.

Definition march8 : ScheduleDay :=
  {| date := "2025-03-08"; items := []; summary := None |}.
Definition march9 : ScheduleDay :=
  {| date := "2025-03-09"; items := []; summary := None |}.
Definition march10 : ScheduleDay :=
  {| date := "2025-03-10"; items := []; summary := None |}.

(** The card showing these three days, the first one selected. *)
Definition marchCard : State :=
  showing [march8; march9; march10] 0 (initialState "7").

(** *** Every event of the card *)

(** The load effect (it runs on mount and again when [courseId] changes) and
    the five buttons, one step each; a load settles in any later state. *)
Inductive event (localeCompare : string -> string -> Z)
  : State -> State -> Prop :=
| event_load_start s : event localeCompare s (load_start s)
| event_load_settle today o s :
    event localeCompare s (load_settle localeCompare today o s)
| event_prev s : event localeCompare s (prev s)
| event_next s : event localeCompare s (next s)
| event_today todayStr s : event localeCompare s (goToday todayStr s)
| event_tomorrow tomorrowStr s :
    event localeCompare s (goTomorrow tomorrowStr s)
| event_upcoming todayStr s : event localeCompare s (goUpcoming todayStr s).

Inductive live (localeCompare : string -> string -> Z) : State -> Prop :=
| live_init cid : live localeCompare (initialState cid)
| live_event s s' :
    live localeCompare s -> event localeCompare s s' -> live localeCompare s'.

(** The selection is an index of the day list, or 0 when the list is
    empty. *)
Definition selectionInRange (s : State) : Prop :=
  0 <= currentIndex s < Z.max 1 (Z.of_nat (length (days s))).

End Renderer.

(** * Facts about the JavaScript helpers *)

Lemma includesZ_In (l : list Z) (x : Z) : includesZ l x = true <-> In x l.
Proof.
  unfold includesZ. rewrite existsb_exists. split.
  - intros [y [Hy Heq]]. apply Z.eqb_eq in Heq. now subst.
  - intros H. exists x. split; [assumption | apply Z.eqb_refl].
Qed.

Lemma includesZ_not_In (l : list Z) (x : Z) :
  includesZ l x = false <-> ~ In x l.
Proof.
  rewrite <- includesZ_In. destruct (includesZ l x); split; congruence.
Qed.

Lemma includesS_In (l : list string) (x : string) :
  includesS l x = true <-> In x l.
Proof.
  unfold includesS. rewrite existsb_exists. split.
  - intros [y [Hy Heq]]. apply String.eqb_eq in Heq. now subst.
  - intros H. exists x. split; [assumption | apply String.eqb_refl].
Qed.

Lemma setAdd_In (acc : list Z) (x y : Z) :
  In y (setAdd acc x) <-> In y acc \/ y = x.
Proof.
  unfold setAdd. destruct (includesZ acc x) eqn:E.
  - apply includesZ_In in E. split; [tauto | intros [H | ->]; assumption].
  - rewrite in_app_iff. simpl. intuition congruence.
Qed.

Lemma setAdd_NoDup (acc : list Z) (x : Z) :
  List.NoDup acc -> List.NoDup (setAdd acc x).
Proof.
  intros Hnd. unfold setAdd. destruct (includesZ acc x) eqn:E; [assumption |].
  apply includesZ_not_In in E. apply List.NoDup_app; [assumption | |].
  - constructor; [intros [] | constructor].
  - intros a Ha [<- | []]. contradiction.
Qed.

Lemma fold_setAdd_In (l acc : list Z) (y : Z) :
  In y (fold_left setAdd l acc) <-> In y acc \/ In y l.
Proof.
  revert acc. induction l as [| x l IH]; intros acc; simpl.
  - tauto.
  - rewrite IH, setAdd_In. intuition congruence.
Qed.

Lemma fold_setAdd_NoDup (l acc : list Z) :
  List.NoDup acc -> List.NoDup (fold_left setAdd l acc).
Proof.
  revert acc. induction l as [| x l IH]; intros acc Hnd; simpl.
  - assumption.
  - apply IH, setAdd_NoDup, Hnd.
Qed.

(** Spreading a set keeps exactly the elements of the array, once each. *)
Lemma setSpread_In (l : list Z) (y : Z) : In y (setSpread l) <-> In y l.
Proof. unfold setSpread. rewrite fold_setAdd_In. simpl. tauto. Qed.

Lemma setSpread_NoDup (l : list Z) : List.NoDup (setSpread l).
Proof. apply fold_setAdd_NoDup. constructor. Qed.

Lemma setSpread_count (l : list Z) (y : Z) :
  In y l -> count_occ Z.eq_dec (setSpread l) y = 1%nat.
Proof.
  intros H. apply (proj1 (NoDup_count_occ' Z.eq_dec _) (setSpread_NoDup l)).
  now apply setSpread_In.
Qed.

(** * The calendar form: proofs *)

Module BuilderProofs.
Import Builder.

Lemma notWeekend_true (d : Z) : notWeekend d = true <-> d <> 0 /\ d <> 6.
Proof.
  unfold notWeekend. rewrite andb_true_iff, !negb_true_iff, !Z.eqb_neq. tauto.
Qed.

Lemma filter_notWeekend_In (l : list Z) (y : Z) :
  In y (List.filter notWeekend l) <-> In y l /\ y <> 0 /\ y <> 6.
Proof. rewrite filter_In, notWeekend_true. tauto. Qed.

Lemma filter_neq_In (l : list Z) (i y : Z) :
  In y (List.filter (fun d => negb (d =? i)) l) <-> In y l /\ y <> i.
Proof. rewrite filter_In, negb_true_iff, Z.eqb_neq. tauto. Qed.

Lemma filter_notWeekend_absorbs (l : list Z) (i : Z) :
  i = 0 \/ i = 6 ->
  List.filter notWeekend (List.filter (fun d => negb (d =? i)) l)
  = List.filter notWeekend l.
Proof.
  intros Hi. induction l as [| d l IH]; [reflexivity |].
  simpl. destruct (Z.eqb_spec d i) as [-> | Hne]; simpl.
  - replace (notWeekend i) with false by (destruct Hi; subst; reflexivity).
    exact IH.
  - destruct (notWeekend d); [f_equal |]; exact IH.
Qed.

(** *** What each handler leaves in [includeWeekends] and [excludeWeekdays] *)

Lemma toggleIncludeWeekends_flag (s : State) :
  includeWeekends (toggleIncludeWeekends s) = negb (includeWeekends s).
Proof.
  unfold toggleIncludeWeekends, commit, includeWeekendsEffect.
  destruct s as [? ? ? [] ? ? ? ? ? ? ? ? ? ?]; reflexivity.
Qed.

Lemma toggleIncludeWeekends_on (s : State) :
  includeWeekends s = false ->
  excludeWeekdays (toggleIncludeWeekends s)
  = List.filter notWeekend (excludeWeekdays s).
Proof.
  intros H. unfold toggleIncludeWeekends, commit, includeWeekendsEffect.
  destruct s; simpl in *; subst; reflexivity.
Qed.

Lemma toggleIncludeWeekends_off (s : State) :
  includeWeekends s = true ->
  excludeWeekdays (toggleIncludeWeekends s)
  = setSpread (excludeWeekdays s ++ [0; 6]).
Proof.
  intros H. unfold toggleIncludeWeekends, commit, includeWeekendsEffect.
  destruct s; simpl in *; subst; reflexivity.
Qed.

(** Re-including a weekend day while weekends were off: the flag changes,
    so the effect runs on top of the handler's own update. *)
Lemma handleWeekdayToggle_reinclude_off (i : Z) (s : State) :
  i = 0 \/ i = 6 ->
  includesZ (excludeWeekdays s) i = true ->
  includeWeekends s = false ->
  includeWeekends (handleWeekdayToggle i s) = true /\
  excludeWeekdays (handleWeekdayToggle i s)
  = List.filter notWeekend
      (List.filter (fun d => negb (d =? i)) (excludeWeekdays s)).
Proof.
  intros Hi Hex Hoff. unfold handleWeekdayToggle, commit, includeWeekendsEffect.
  rewrite Hex.
  replace ((i =? 0) || (i =? 6))%bool with true
    by (destruct Hi; subst; reflexivity).
  destruct s; simpl in *; subst; simpl. split; reflexivity.
Qed.

(** Re-including a weekend day while weekends were already on: nothing that
    the effect depends on changes. *)
Lemma handleWeekdayToggle_reinclude_on (i : Z) (s : State) :
  i = 0 \/ i = 6 ->
  includesZ (excludeWeekdays s) i = true ->
  includeWeekends s = true ->
  includeWeekends (handleWeekdayToggle i s) = true /\
  excludeWeekdays (handleWeekdayToggle i s)
  = List.filter (fun d => negb (d =? i)) (excludeWeekdays s).
Proof.
  intros Hi Hex Hon. unfold handleWeekdayToggle, commit, includeWeekendsEffect.
  rewrite Hex.
  replace ((i =? 0) || (i =? 6))%bool with true
    by (destruct Hi; subst; reflexivity).
  destruct s; simpl in *; subst; simpl. split; reflexivity.
Qed.

(** Re-including a working day. *)
Lemma handleWeekdayToggle_remove_weekday (i : Z) (s : State) :
  i <> 0 -> i <> 6 ->
  includesZ (excludeWeekdays s) i = true ->
  includeWeekends (handleWeekdayToggle i s) = includeWeekends s /\
  excludeWeekdays (handleWeekdayToggle i s)
  = List.filter (fun d => negb (d =? i)) (excludeWeekdays s).
Proof.
  intros H0 H6 Hex. unfold handleWeekdayToggle, commit.
  rewrite Hex.
  apply Z.eqb_neq in H0. apply Z.eqb_neq in H6. rewrite H0, H6. simpl.
  rewrite Bool.eqb_reflx. split; reflexivity.
Qed.

(** Excluding any day, weekend or not. *)
Lemma handleWeekdayToggle_add (i : Z) (s : State) :
  includesZ (excludeWeekdays s) i = false ->
  includeWeekends (handleWeekdayToggle i s) = includeWeekends s /\
  excludeWeekdays (handleWeekdayToggle i s) = excludeWeekdays s ++ [i].
Proof.
  intros Hex. unfold handleWeekdayToggle, commit.
  rewrite Hex. simpl. rewrite Bool.eqb_reflx. split; reflexivity.
Qed.

Lemma mount_flag (today : string) (cid : option string) (now : Z) :
  includeWeekends (mount today (initialState cid now)) = false /\
  excludeWeekdays (mount today (initialState cid now)) = [0; 6].
Proof. split; reflexivity. Qed.

(** *** The coupling invariant *)

(** C2, as stated, fails: after switching weekends on and then excluding
    Sunday with its own button, [includeWeekends] is still true although 0 is
    in [excludeWeekdays]. *)
Lemma coupling_on_broken_by_weekend_exclusion :
  reachable sundayExcludedWhileOn /\ ~ coupling_on sundayExcludedWhileOn.
Proof.
  split.
  - unfold sundayExcludedWhileOn.
    eapply reachable_toggle; [| apply toggle_weekday].
    eapply reachable_toggle; [| apply toggle_weekends].
    apply reachable_mount.
  - intros H. destruct (H eq_refl) as [H0 _]. apply H0.
    vm_compute. left. reflexivity.
Qed.

Lemma toggle_preserves_coupling_off (s s' : State) :
  toggle s s' -> coupling_off s -> coupling_off s'.
Proof.
  intros Hstep Hinv. destruct Hstep as [s | i s | d s]; intros Hoff.
  - rewrite toggleIncludeWeekends_flag in Hoff.
    apply negb_false_iff in Hoff.
    rewrite (toggleIncludeWeekends_off s Hoff), !setSpread_In, !in_app_iff.
    simpl. tauto.
  - destruct (includesZ (excludeWeekdays s) i) eqn:Hex.
    + destruct (Z.eq_dec i 0) as [-> | H0]; [| destruct (Z.eq_dec i 6) as [-> | H6]].
      * destruct (includeWeekends s) eqn:Hw.
        -- destruct (handleWeekdayToggle_reinclude_on 0 s) as [E _]; auto.
           congruence.
        -- destruct (handleWeekdayToggle_reinclude_off 0 s) as [E _]; auto.
           congruence.
      * destruct (includeWeekends s) eqn:Hw.
        -- destruct (handleWeekdayToggle_reinclude_on 6 s) as [E _]; auto.
           congruence.
        -- destruct (handleWeekdayToggle_reinclude_off 6 s) as [E _]; auto.
           congruence.
      * destruct (handleWeekdayToggle_remove_weekday i s H0 H6 Hex) as [Ef El].
        rewrite Ef in Hoff. destruct (Hinv Hoff) as [I0 I6].
        rewrite El, !filter_neq_In. repeat split; auto.
    + destruct (handleWeekdayToggle_add i s Hex) as [Ef El].
      rewrite Ef in Hoff. destruct (Hinv Hoff) as [I0 I6].
      rewrite El, !in_app_iff. tauto.
  - exact (Hinv Hoff).
Qed.

Lemma toggle_keeping_preserves_coupling_on (s s' : State) :
  toggle_keeping s s' -> coupling_on s -> coupling_on s'.
Proof.
  intros Hstep Hinv. destruct Hstep as [s | i s Hguard | d s]; intros Hon.
  - rewrite toggleIncludeWeekends_flag in Hon.
    apply negb_true_iff in Hon.
    rewrite (toggleIncludeWeekends_on s Hon), !filter_notWeekend_In. tauto.
  - destruct (includesZ (excludeWeekdays s) i) eqn:Hex.
    + destruct (Z.eq_dec i 0) as [-> | H0]; [| destruct (Z.eq_dec i 6) as [-> | H6]].
      * destruct (includeWeekends s) eqn:Hw.
        -- apply includesZ_In in Hex. destruct (Hinv Hw). contradiction.
        -- destruct (handleWeekdayToggle_reinclude_off 0 s) as [_ El]; auto.
           rewrite El, !filter_notWeekend_In. tauto.
      * destruct (includeWeekends s) eqn:Hw.
        -- apply includesZ_In in Hex. destruct (Hinv Hw). contradiction.
        -- destruct (handleWeekdayToggle_reinclude_off 6 s) as [_ El]; auto.
           rewrite El, !filter_notWeekend_In. tauto.
      * destruct (handleWeekdayToggle_remove_weekday i s H0 H6 Hex) as [Ef El].
        rewrite Ef in Hon. destruct (Hinv Hon) as [N0 N6].
        rewrite El, !filter_neq_In. tauto.
    + unfold excludesWeekendDay in Hguard. rewrite Hex in Hguard.
      simpl in Hguard. rewrite andb_true_r in Hguard.
      apply orb_false_iff in Hguard. destruct Hguard as [H0 H6].
      apply Z.eqb_neq in H0. apply Z.eqb_neq in H6.
      destruct (handleWeekdayToggle_add i s Hex) as [Ef El].
      rewrite Ef in Hon. destruct (Hinv Hon) as [N0 N6].
      rewrite El, !in_app_iff. simpl. intuition congruence.
  - exact (Hinv Hon).
Qed.

(** C2, amended. In every state reachable by the three toggles, weekends
    switched off means that Sunday (0) and Saturday (6) are both excluded.
    Weekends switched on means that neither is excluded in every state
    reached without a click that excludes Sunday or Saturday with its own
    weekday button (such a click leaves [includeWeekends] as it is). *)
Theorem include_weekends_coupling (s : State) :
  (reachable s -> coupling_off s) /\ (reachable_keeping s -> coupling_on s).
Proof.
  split.
  - induction 1 as [cid now today | s s' _ IH Hstep].
    + intros _. rewrite (proj2 (mount_flag today cid now)). simpl. auto.
    + exact (toggle_preserves_coupling_off s s' Hstep IH).
  - induction 1 as [cid now today | s s' _ IH Hstep].
    + intros Hon. rewrite (proj1 (mount_flag today cid now)) in Hon.
      discriminate.
    + exact (toggle_keeping_preserves_coupling_on s s' Hstep IH).
Qed.

Lemma include_weekends_coupling_witness :
  coupling_off (mount "2025-01-06" (initialState (Some "7") 0)) /\
  coupling_on
    (toggleIncludeWeekends (mount "2025-01-06" (initialState (Some "7") 0))).
Proof.
  split.
  - apply (proj1 (include_weekends_coupling _)). apply reachable_mount.
  - apply (proj2 (include_weekends_coupling _)).
    eapply keeping_toggle; [apply keeping_mount | apply keeping_weekends].
Defined.

(** *** The weekday buttons *)

(** C4. A click on the Sunday or Saturday button while that day is excluded
    removes it from [excludeWeekdays] and leaves [includeWeekends] true; a
    click that excludes Sunday or Saturday leaves [includeWeekends] as it
    was, so it never switches weekends off. *)
Theorem weekend_toggle_forces_includeWeekends (s : State) (i : Z) :
  i = 0 \/ i = 6 ->
  (In i (excludeWeekdays s) ->
   ~ In i (excludeWeekdays (handleWeekdayToggle i s)) /\
   includeWeekends (handleWeekdayToggle i s) = true) /\
  (~ In i (excludeWeekdays s) ->
   In i (excludeWeekdays (handleWeekdayToggle i s)) /\
   includeWeekends (handleWeekdayToggle i s) = includeWeekends s).
Proof.
  intros Hi. split.
  - intros Hin. apply includesZ_In in Hin.
    destruct (includeWeekends s) eqn:Hw.
    + destruct (handleWeekdayToggle_reinclude_on i s Hi Hin Hw) as [Ef El].
      rewrite El, filter_neq_In. tauto.
    + destruct (handleWeekdayToggle_reinclude_off i s Hi Hin Hw) as [Ef El].
      rewrite El, filter_notWeekend_In, filter_neq_In. tauto.
  - intros Hnin. apply includesZ_not_In in Hnin.
    destruct (handleWeekdayToggle_add i s Hnin) as [Ef El].
    rewrite El, in_app_iff. simpl. auto.
Qed.

Lemma weekend_toggle_forces_includeWeekends_witness :
  (~ In 0 (excludeWeekdays
             (handleWeekdayToggle 0
                (mount "2025-01-06" (initialState (Some "7") 0)))) /\
   includeWeekends
     (handleWeekdayToggle 0 (mount "2025-01-06" (initialState (Some "7") 0)))
   = true) /\
  (In 6 (excludeWeekdays
           (handleWeekdayToggle 6
              (toggleIncludeWeekends
                 (mount "2025-01-06" (initialState (Some "7") 0))))) /\
   includeWeekends
     (handleWeekdayToggle 6
        (toggleIncludeWeekends
           (mount "2025-01-06" (initialState (Some "7") 0))))
   = true).
Proof.
  split.
  - apply (proj1 (weekend_toggle_forces_includeWeekends
                    (mount "2025-01-06" (initialState (Some "7") 0)) 0
                    (or_introl eq_refl))).
    simpl. left. reflexivity.
  - apply (proj2 (weekend_toggle_forces_includeWeekends
                    (toggleIncludeWeekends
                       (mount "2025-01-06" (initialState (Some "7") 0))) 6
                    (or_intror eq_refl))).
    simpl. intros [].
Defined.

(** C9. Re-including Sunday or Saturday with its own button while weekends
    are off removes both 0 and 6 from [excludeWeekdays]: the effect on
    [includeWeekends] runs after the handler and filters the other weekend
    day as well. The working days stay as they were. *)
Theorem weekend_reinclusion_strips_both_days (s : State) (i : Z) :
  i = 0 \/ i = 6 ->
  In i (excludeWeekdays s) ->
  includeWeekends s = false ->
  includeWeekends (handleWeekdayToggle i s) = true /\
  ~ In 0 (excludeWeekdays (handleWeekdayToggle i s)) /\
  ~ In 6 (excludeWeekdays (handleWeekdayToggle i s)) /\
  excludeWeekdays (handleWeekdayToggle i s)
  = List.filter notWeekend (excludeWeekdays s).
Proof.
  intros Hi Hin Hoff. apply includesZ_In in Hin.
  destruct (handleWeekdayToggle_reinclude_off i s Hi Hin Hoff) as [Ef El].
  rewrite El, (filter_notWeekend_absorbs _ i Hi). split; [exact Ef |].
  rewrite !filter_notWeekend_In. tauto.
Qed.

Lemma weekend_reinclusion_strips_both_days_witness :
  excludeWeekdays
    (handleWeekdayToggle 0 (mount "2025-01-06" (initialState (Some "7") 0)))
  = [].
Proof.
  pose proof (weekend_reinclusion_strips_both_days
                (mount "2025-01-06" (initialState (Some "7") 0)) 0
                (or_introl eq_refl) (or_introl eq_refl) eq_refl)
    as [_ [_ [_ E]]].
  exact E.
Defined.

(** *** The weekend switch *)

(** C5. Switching weekends on leaves neither 0 nor 6 in [excludeWeekdays]
    and removes nothing else; switching them off leaves both in it, each
    exactly once, in a list without any duplicate whose other members are
    the ones it had before. *)
Theorem toggleIncludeWeekends_weekend_days (s : State) :
  (includeWeekends s = false ->
   includeWeekends (toggleIncludeWeekends s) = true /\
   ~ In 0 (excludeWeekdays (toggleIncludeWeekends s)) /\
   ~ In 6 (excludeWeekdays (toggleIncludeWeekends s)) /\
   forall d, In d (excludeWeekdays (toggleIncludeWeekends s)) <->
             In d (excludeWeekdays s) /\ d <> 0 /\ d <> 6) /\
  (includeWeekends s = true ->
   includeWeekends (toggleIncludeWeekends s) = false /\
   In 0 (excludeWeekdays (toggleIncludeWeekends s)) /\
   In 6 (excludeWeekdays (toggleIncludeWeekends s)) /\
   count_occ Z.eq_dec (excludeWeekdays (toggleIncludeWeekends s)) 0 = 1%nat /\
   count_occ Z.eq_dec (excludeWeekdays (toggleIncludeWeekends s)) 6 = 1%nat /\
   List.NoDup (excludeWeekdays (toggleIncludeWeekends s)) /\
   forall d, In d (excludeWeekdays (toggleIncludeWeekends s)) <->
             In d (excludeWeekdays s) \/ d = 0 \/ d = 6).
Proof.
  split; intros Hw.
  - rewrite toggleIncludeWeekends_flag, Hw.
    rewrite (toggleIncludeWeekends_on s Hw).
    split; [reflexivity |]. rewrite !filter_notWeekend_In.
    split; [tauto |]. split; [tauto |].
    intros d. apply filter_notWeekend_In.
  - rewrite toggleIncludeWeekends_flag, Hw.
    rewrite (toggleIncludeWeekends_off s Hw).
    assert (H0 : In 0 (excludeWeekdays s ++ [0; 6]))
      by (apply in_app_iff; simpl; auto).
    assert (H6 : In 6 (excludeWeekdays s ++ [0; 6]))
      by (apply in_app_iff; simpl; auto).
    split; [reflexivity |].
    split; [now apply setSpread_In |].
    split; [now apply setSpread_In |].
    split; [now apply setSpread_count |].
    split; [now apply setSpread_count |].
    split; [apply setSpread_NoDup |].
    intros d. rewrite setSpread_In, in_app_iff. simpl.
    intuition congruence.
Qed.

Lemma toggleIncludeWeekends_weekend_days_witness :
  excludeWeekdays
    (toggleIncludeWeekends (mount "2025-01-06" (initialState (Some "7") 0)))
  = [] /\
  count_occ Z.eq_dec
    (excludeWeekdays (toggleIncludeWeekends sundayExcludedWhileOn)) 0 = 1%nat.
Proof.
  split.
  - reflexivity.
  - apply (proj2 (toggleIncludeWeekends_weekend_days sundayExcludedWhileOn)).
    reflexivity.
Defined.

(** *** Exclusion is a matter of the draft only *)

Lemma handleWeekdayToggle_frame (i : Z) (s : State) :
  handleWeekdayToggle i s
  = setExcludeWeekdays
      (fun _ => excludeWeekdays (handleWeekdayToggle i s))
      (setIncludeWeekends (includeWeekends (handleWeekdayToggle i s)) s).
Proof.
  unfold handleWeekdayToggle, commit, includeWeekendsEffect.
  destruct s as [? ? ? w l ? ? ? ? ? ? ? ? ?]; simpl.
  destruct (includesZ l i); destruct ((i =? 0) || (i =? 6))%bool;
    destruct w; reflexivity.
Qed.

(** C7. A click on a calendar cell or on a weekday button leaves the
    fetched schedule index as it is: the first changes [excludeDates] only,
    the second [excludeWeekdays] and [includeWeekends] only. A day of the
    index that gets excluded is still in the index afterwards, and the grid
    then finds it both scheduled and excluded. *)
Theorem exclusion_toggles_keep_schedule (s : State) (d : string) (i : Z) :
  scheduledTasks (handleDateClick d s) = scheduledTasks s /\
  scheduledTasks (handleWeekdayToggle i s) = scheduledTasks s /\
  handleDateClick d s
  = setExcludeDates (fun _ => excludeDates (handleDateClick d s)) s /\
  handleWeekdayToggle i s
  = setExcludeWeekdays
      (fun _ => excludeWeekdays (handleWeekdayToggle i s))
      (setIncludeWeekends (includeWeekends (handleWeekdayToggle i s)) s) /\
  (forall day w,
     scheduledDay d s = Some day ->
     includesS (excludeDates s) d = false ->
     scheduledDay d (handleDateClick d s) = Some day /\
     isExcluded d w (handleDateClick d s) = true) /\
  (forall day dayStr,
     scheduledDay dayStr s = Some day ->
     includesZ (excludeWeekdays s) i = false ->
     scheduledDay dayStr (handleWeekdayToggle i s) = Some day /\
     isExcluded dayStr i (handleWeekdayToggle i s) = true).
Proof.
  assert (Hw : scheduledTasks (handleWeekdayToggle i s) = scheduledTasks s)
    by (rewrite handleWeekdayToggle_frame; reflexivity).
  split; [reflexivity |]. split; [exact Hw |].
  split; [reflexivity |]. split; [apply handleWeekdayToggle_frame |].
  split.
  - intros day w Hday Hex. split; [exact Hday |].
    unfold isExcluded, handleDateClick. simpl. rewrite Hex.
    apply orb_true_iff. left. apply includesS_In, in_app_iff.
    right. left. reflexivity.
  - intros day dayStr Hday Hex. split.
    + unfold scheduledDay. rewrite Hw. exact Hday.
    + unfold isExcluded. apply orb_true_iff. right.
      destruct (handleWeekdayToggle_add i s Hex) as [_ El].
      rewrite El. apply includesZ_In, in_app_iff. right. left. reflexivity.
Qed.

Lemma showingMonday_scheduled :
  scheduledDay "2025-01-06" showingMonday = Some monday.
Proof.
  unfold scheduledDay, showingMonday, scheduleMap. simpl.
  apply (lookup_insert_eq (M := gmap string)).
Qed.

Lemma exclusion_toggles_keep_schedule_witness :
  scheduledDay "2025-01-06" (handleDateClick "2025-01-06" showingMonday)
  = Some monday /\
  isExcluded "2025-01-06" 1 (handleDateClick "2025-01-06" showingMonday)
  = true.
Proof.
  destruct (exclusion_toggles_keep_schedule showingMonday "2025-01-06" 1)
    as [_ [_ [_ [_ [H _]]]]].
  apply (H monday 1).
  - exact showingMonday_scheduled.
  - reflexivity.
Defined.

(** *** Failed calls *)

(** C1, as stated, fails for the generate call: [handleSubmit] clears the
    rendered schedule before it sends the request, so after a failed call
    the form shows an empty schedule instead of the previous one. *)
Lemma failed_generate_loses_schedule :
  truthy (courseId showingMonday) = true /\
  fetch_failed (FetchResolves 500 (JsonRejects "no body")) = true /\
  scheduledTasks (handleSubmit (FetchResolves 500 (JsonRejects "no body")) showingMonday)
  <> scheduledTasks showingMonday.
Proof.
  split; [reflexivity |]. split; [reflexivity |].
  intros H.
  pose proof showingMonday_scheduled as Hm. unfold scheduledDay in Hm.
  rewrite <- H in Hm. simpl in Hm.
  rewrite (lookup_empty (M := gmap string)) in Hm. discriminate.
Qed.

(** C1, amended. A save that fails leaves the rendered schedule index
    exactly as it was before the call and only logs the error. A generate
    call that fails leaves the rendered schedule index empty: it was cleared
    when the call started, and the error path itself changes nothing in the
    index and only logs the error. On neither error path is any day of a
    response merged into the index. *)
Theorem failed_call_only_logs (o : FetchOutcome) (s : State) :
  truthy (courseId s) = true ->
  fetch_failed o = true ->
  exists err,
    awaitResponse o = inl err /\
    handlePersist o s
    = setIsSaving false
        (consoleError "Failed to save schedule:" err (setIsSaving true s)) /\
    scheduledTasks (handlePersist o s) = scheduledTasks s /\
    handleSubmit o s
    = setIsLoading false
        (consoleError "Failed to generate schedule:" err
           (setScheduledTasks ∅ (setIsLoading true s))) /\
    scheduledTasks (handleSubmit o s) = ∅ /\
    (forall s', scheduledTasks (handleSubmit_settle o s') = scheduledTasks s') /\
    (forall s', scheduledTasks (handlePersist_settle o s') = scheduledTasks s').
Proof.
  intros Hcid Hfail. unfold fetch_failed in Hfail.
  destruct (awaitResponse o) as [err | data] eqn:E; [| discriminate].
  exists err. split; [reflexivity |].
  unfold handlePersist, handleSubmit, handleSubmit_settle,
    handlePersist_settle, handleSubmit_start, handlePersist_start.
  rewrite Hcid, E. simpl. repeat split; reflexivity.
Qed.

Lemma failed_call_only_logs_witness :
  scheduledTasks (handlePersist (FetchRejects "offline") showingMonday)
  = scheduledTasks showingMonday /\
  scheduledTasks (handleSubmit (FetchResolves 404 (JsonRejects "no body")) showingMonday)
  = ∅.
Proof.
  split.
  - destruct (failed_call_only_logs (FetchRejects "offline") showingMonday
                eq_refl eq_refl) as [err [_ [_ [H _]]]].
    exact H.
  - destruct (failed_call_only_logs (FetchResolves 404 (JsonRejects "no body"))
                showingMonday eq_refl eq_refl) as [err [_ [_ [_ [_ [H _]]]]]].
    exact H.
Defined.

End BuilderProofs.

(** * The saved-schedule card: proofs *)

Module RendererProofs.
Import Renderer.

(** *** [findIndex] *)

Lemma index_of_nat {A : Type} (l : list A) (n : nat) :
  index l (Z.of_nat n) = l !! n.
Proof.
  unfold index. destruct (Z.ltb_spec (Z.of_nat n) 0); [lia |].
  now rewrite Nat2Z.id.
Qed.

Lemma index_Some_In {A : Type} (l : list A) (k : Z) (d : A) :
  index l k = Some d -> In d l.
Proof.
  unfold index. destruct (k <? 0); [discriminate |].
  intros H. apply list_elem_of_In. eapply list_elem_of_lookup_2. exact H.
Qed.

Lemma findIndexFrom_cases {A : Type} (p : A -> bool) (l : list A) (i : Z) :
  (findIndexFrom p l i = -1 /\ noMatch p l) \/
  (exists n d,
      findIndexFrom p l i = i + Z.of_nat n /\ l !! n = Some d /\ p d = true /\
      forall m d', (m < n)%nat -> l !! m = Some d' -> p d' = false).
Proof.
  revert i. induction l as [| x l IH]; intros i; simpl.
  - left. split; [reflexivity | intros d []].
  - destruct (p x) eqn:Hx.
    + right. exists 0%nat, x. repeat split; [lia | assumption | lia].
    + destruct (IH (i + 1)) as [[E Hno] | (n & d & E & Hn & Hd & Hmin)].
      * left. split; [exact E |].
        intros d [<- | Hin]; [exact Hx | now apply Hno].
      * right. exists (S n), d. repeat split; [lia | assumption | assumption |].
        intros [| m] d' Hlt Hm; simpl in Hm.
        -- now inversion Hm; subst.
        -- apply (Hmin m); [lia | assumption].
Qed.

Lemma findIndex_cases {A : Type} (p : A -> bool) (l : list A) :
  (findIndex p l = -1 /\ noMatch p l) \/ firstMatch p l (findIndex p l).
Proof.
  unfold findIndex.
  destruct (findIndexFrom_cases p l 0) as [H | (n & d & E & Hn & Hd & Hmin)].
  - left. exact H.
  - right. rewrite E, Z.add_0_l. split; [lia |]. split.
    + exists d. rewrite index_of_nat. auto.
    + intros j d' Hj Hjd.
      replace j with (Z.of_nat (Z.to_nat j)) in Hjd by lia.
      rewrite index_of_nat in Hjd. apply (Hmin (Z.to_nat j)); [lia | exact Hjd].
Qed.

Lemma firstMatch_not_noMatch {A : Type} (p : A -> bool) (l : list A) (k : Z) :
  firstMatch p l k -> noMatch p l -> False.
Proof.
  intros (_ & (d & Hd & Hp) & _) Hno.
  apply index_Some_In in Hd. rewrite (Hno d Hd) in Hp. discriminate.
Qed.

Lemma findIndex_found {A : Type} (p : A -> bool) (l : list A) (d : A) :
  In d l -> p d = true -> firstMatch p l (findIndex p l).
Proof.
  intros Hin Hp. destruct (findIndex_cases p l) as [[_ Hno] | H]; [| exact H].
  rewrite (Hno d Hin) in Hp. discriminate.
Qed.

Lemma findIndex_none {A : Type} (p : A -> bool) (l : list A) :
  noMatch p l -> findIndex p l = -1.
Proof.
  intros Hno. destruct (findIndex_cases p l) as [[E _] | H]; [exact E |].
  destruct (firstMatch_not_noMatch p l _ H Hno).
Qed.

(** *** The order of date strings *)

Lemma ltb_leb_trans (a b c : string) :
  String.ltb a b = true -> String.leb b c = true -> String.ltb a c = true.
Proof.
  unfold String.ltb, String.leb. intros Hab Hbc.
  destruct (String.compare a b) eqn:Eab; try discriminate.
  destruct (String.compare b c) eqn:Ebc; try discriminate.
  - apply String.compare_eq_iff in Ebc. subst. now rewrite Eab.
  - apply String_as_OT.cmp_lt in Eab. apply String_as_OT.cmp_lt in Ebc.
    pose proof (String_as_OT.lt_trans _ _ _ Eab Ebc) as Hac.
    apply String_as_OT.cmp_lt in Hac. unfold String_as_OT.cmp in Hac.
    now rewrite Hac.
Qed.

Lemma leb_refl (a : string) : String.leb a a = true.
Proof. destruct (String.leb_total a a); assumption. Qed.

Lemma leb_trans (a b c : string) :
  String.leb a b = true -> String.leb b c = true -> String.leb a c = true.
Proof.
  intros Hab Hbc. unfold String.leb in Hab.
  destruct (String.compare a b) eqn:Eab; try discriminate.
  - apply String.compare_eq_iff in Eab. now subst.
  - assert (H : String.ltb a c = true)
      by (apply (ltb_leb_trans a b c); [unfold String.ltb; now rewrite Eab | exact Hbc]).
    unfold String.ltb in H. unfold String.leb.
    destruct (String.compare a c); [reflexivity | reflexivity | discriminate].
Qed.

(** In a list sorted by date, every entry from the first upcoming one on is
    upcoming. *)
Lemma sortedByDate_lookup_le (l : list ScheduleDay) (n m : nat)
      (a b : ScheduleDay) :
  sortedByDate l -> (n <= m)%nat -> l !! n = Some a -> l !! m = Some b ->
  date_le a b.
Proof.
  intros Hs. revert n m. induction Hs as [| x l Hs IH Hall]; intros n m Hnm Ha Hb.
  - discriminate.
  - destruct n as [| n]; destruct m as [| m]; simpl in *; try lia.
    + inversion Ha; inversion Hb; subst. apply leb_refl.
    + inversion Ha; subst. rewrite List.Forall_forall in Hall.
      apply Hall, list_elem_of_In. eapply list_elem_of_lookup_2. exact Hb.
    + apply (IH n m); [lia | assumption | assumption].
Qed.

Lemma upcoming_from_first (l : list ScheduleDay) (today : string) (k : Z) :
  sortedByDate l -> firstMatch (afterDate today) l k ->
  forall j d, k <= j -> index l j = Some d -> afterDate today d = true.
Proof.
  intros Hs (Hk & (d0 & Hd0 & Hp0) & _) j d Hj Hd.
  unfold index in Hd0, Hd.
  destruct (Z.ltb_spec k 0); [lia |]. destruct (Z.ltb_spec j 0); [lia |].
  unfold afterDate in *.
  apply (ltb_leb_trans today (date d0) (date d)); [exact Hp0 |].
  apply (sortedByDate_lookup_le l (Z.to_nat k) (Z.to_nat j)); auto. lia.
Qed.

(** *** The default selection *)

(** C3. For a day list [D] sorted by date, the default selection is the
    first index whose date is today when there is one; otherwise the first
    index whose date is after today when there is one, and every entry from
    there on is after today; otherwise 0. For the empty list it is 0, no
    day is current, and the card shows "No schedule". *)
Theorem initial_selection (D : list ScheduleDay) (today : string) :
  sortedByDate D ->
  ((exists d, In d D /\ onDate today d = true) ->
   firstMatch (onDate today) D (initialSelection D today)) /\
  (noMatch (onDate today) D ->
   (exists d, In d D /\ afterDate today d = true) ->
   firstMatch (afterDate today) D (initialSelection D today) /\
   forall j d,
     initialSelection D today <= j -> index D j = Some d ->
     afterDate today d = true) /\
  (noMatch (onDate today) D -> noMatch (afterDate today) D ->
   initialSelection D today = 0) /\
  (D = [] ->
   initialSelection D today = 0 /\
   forall formatDay tomorrow s,
     isLoading s = false ->
     currentDay (showing D (initialSelection D today) s) = None /\
     headerLabel formatDay today tomorrow
       (showing D (initialSelection D today) s) = "No schedule" /\
     body (showing D (initialSelection D today) s) = BodyNoSchedule).
Proof.
  intros Hsorted. unfold initialSelection. split; [| split; [| split]].
  - intros (d & Hin & Hd).
    pose proof (findIndex_found _ _ d Hin Hd) as Hfirst.
    destruct (Z.eqb_spec (findIndex (onDate today) D) (-1)) as [E | _].
    + destruct Hfirst as [Hk _]. lia.
    + destruct Hfirst as [Hk Hrest]. rewrite Z.max_r by lia.
      split; assumption.
  - intros Hno (d & Hin & Hd).
    rewrite (findIndex_none _ _ Hno). simpl.
    pose proof (findIndex_found _ _ d Hin Hd) as Hfirst.
    assert (Hk : 0 <= findIndex (afterDate today) D) by apply Hfirst.
    rewrite Z.max_r by lia. split; [exact Hfirst |].
    apply upcoming_from_first; assumption.
  - intros Hno Hno'.
    rewrite (findIndex_none _ _ Hno). simpl.
    rewrite (findIndex_none _ _ Hno'). reflexivity.
  - intros ->. split; [reflexivity |].
    intros formatDay tomorrow s Hload.
    unfold headerLabel, body, currentDay, showing. simpl.
    rewrite Hload. repeat split; reflexivity.
Qed.

Lemma initial_selection_witness :
  firstMatch (onDate "2025-01-08") [tuesday; wednesday]
    (initialSelection [tuesday; wednesday] "2025-01-08").
Proof.
  assert (Hsorted : sortedByDate [tuesday; wednesday]).
  { repeat constructor. }
  apply (proj1 (initial_selection [tuesday; wednesday] "2025-01-08" Hsorted)).
  exists wednesday. split; [right; left |]; reflexivity.
Defined.

(** The scenarios of the specification. *)
Example initial_selection_today :
  initialSelection [Builder.monday; tuesday] "2025-01-06" = 0 /\
  headerLabel (fun d => d) "2025-01-06" "2025-01-07"
    (showing [Builder.monday; tuesday] 0 (initialState "7")) = "Today".
Proof. split; reflexivity. Qed.

Example initial_selection_first_upcoming :
  initialSelection [Builder.monday; tuesday] "2025-01-05" = 0.
Proof. reflexivity. Qed.

Example initial_selection_all_past :
  initialSelection [Builder.monday; tuesday] "2025-02-01" = 0.
Proof. reflexivity. Qed.

(** *** Previous and next *)

(** C6. [prev] at index 0 and [next] at the last index change nothing;
    anywhere else in the list they move the selection by exactly one
    position and change nothing else. A selection inside the list stays
    inside it: there is no wraparound. *)
Theorem navigation_clamps (s : State) :
  (currentIndex s = 0 -> prev s = s) /\
  (days s <> [] -> currentIndex s = Z.of_nat (length (days s)) - 1 ->
   next s = s) /\
  (days s = [] -> currentIndex s = 0 -> next s = s) /\
  (0 < currentIndex s -> prev s = setCurrentIndex (currentIndex s - 1) s) /\
  (0 <= currentIndex s < Z.of_nat (length (days s)) - 1 ->
   next s = setCurrentIndex (currentIndex s + 1) s) /\
  (0 <= currentIndex s < Z.of_nat (length (days s)) ->
   0 <= currentIndex (prev s) < Z.of_nat (length (days s)) /\
   0 <= currentIndex (next s) < Z.of_nat (length (days s))).
Proof.
  unfold prev, next, canPrev, canNext.
  split; [| split; [| split; [| split; [| split]]]].
  - intros ->. reflexivity.
  - intros Hne Hlast.
    assert (0 < length (days s))%nat
      by (destruct (days s); [congruence | simpl; lia]).
    destruct (Z.ltb_spec (currentIndex s)
                (Z.max 0 (Z.of_nat (length (days s)) - 1))); [lia | reflexivity].
  - intros -> ->. reflexivity.
  - intros Hpos. destruct (Z.ltb_spec 0 (currentIndex s)); [reflexivity | lia].
  - intros Hin.
    destruct (Z.ltb_spec (currentIndex s)
                (Z.max 0 (Z.of_nat (length (days s)) - 1))); [reflexivity | lia].
  - intros Hin. split.
    + destruct (Z.ltb_spec 0 (currentIndex s)); simpl; lia.
    + destruct (Z.ltb_spec (currentIndex s)
                  (Z.max 0 (Z.of_nat (length (days s)) - 1))); simpl; lia.
Qed.

Lemma navigation_clamps_witness :
  prev (showing [tuesday; wednesday] 0 (initialState "7"))
  = showing [tuesday; wednesday] 0 (initialState "7") /\
  next (showing [tuesday; wednesday] 1 (initialState "7"))
  = showing [tuesday; wednesday] 1 (initialState "7") /\
  next (showing [tuesday; wednesday] 0 (initialState "7"))
  = showing [tuesday; wednesday] 1 (initialState "7").
Proof.
  split; [| split].
  - apply (proj1 (navigation_clamps _)). reflexivity.
  - apply (proj1 (proj2 (navigation_clamps _))); [discriminate | reflexivity].
  - apply (proj1 (proj2 (proj2 (proj2 (proj2 (navigation_clamps
             (showing [tuesday; wednesday] 0 (initialState "7")))))))).
    simpl. lia.
Defined.

(** *** Today, Tomorrow, Upcoming *)

Lemma jump_shape (p : ScheduleDay -> bool) (s : State) :
  jumpsTo p s
    (setCurrentIndex
       (Z.max 0 (if findIndex p (days s) =? -1 then 0
                 else findIndex p (days s))) s).
Proof.
  split; [reflexivity |]. simpl. split.
  - intros (d & Hin & Hd).
    pose proof (findIndex_found p _ d Hin Hd) as Hfirst.
    assert (Hk : 0 <= findIndex p (days s)) by apply Hfirst.
    destruct (Z.eqb_spec (findIndex p (days s)) (-1)); [lia |].
    now rewrite Z.max_r by lia.
  - intros Hno. now rewrite (findIndex_none p _ Hno).
Qed.

Lemma days_nonempty_length (s : State) :
  days s <> [] -> (length (days s) =? 0)%nat = false.
Proof. destruct (days s); [congruence | reflexivity]. Qed.

(** The three handlers as functions of the date strings they compute. On
    an empty day list they do nothing. On a non-empty day list sorted by
    date, each selects the first entry that matches its string ([today] for
    Today, [tomorrow] for Tomorrow, after [today] for Upcoming, where every
    entry from the selected one on is after [today]), or index 0 when there
    is no such entry, and changes nothing but the selection. Which strings
    the clicks compute is the matter of [click_buttons] below. *)
Theorem jump_buttons (s : State) (today tomorrow : string) :
  sortedByDate (days s) ->
  (days s = [] ->
   goToday today s = s /\ goTomorrow tomorrow s = s /\ goUpcoming today s = s) /\
  (days s <> [] ->
   jumpsTo (onDate today) s (goToday today s) /\
   jumpsTo (onDate tomorrow) s (goTomorrow tomorrow s) /\
   jumpsTo (afterDate today) s (goUpcoming today s) /\
   ((exists d, In d (days s) /\ afterDate today d = true) ->
    forall j d,
      currentIndex (goUpcoming today s) <= j -> index (days s) j = Some d ->
      afterDate today d = true)).
Proof.
  intros Hsorted. split.
  - intros Hnil. unfold goToday, goTomorrow, goUpcoming. rewrite Hnil.
    repeat split; reflexivity.
  - intros Hne. pose proof (days_nonempty_length s Hne) as Hlen.
    unfold goToday, goTomorrow, goUpcoming. rewrite Hlen.
    split; [apply jump_shape |]. split; [apply jump_shape |].
    split; [apply jump_shape |].
    intros Hex. apply upcoming_from_first; [exact Hsorted |].
    apply (jump_shape (afterDate today) s). exact Hex.
Qed.

(** A click on Today or Upcoming works with the local date of the click. A
    click on Tomorrow works with the local date of the instant 24 hours
    later; that is the date of the next calendar day whenever that instant
    falls on the next local day. *)
Lemma click_buttons (utcOffset : Z -> Z) (now : Z) (s : State) :
  days s <> [] ->
  jumpsTo (onDate (formatLocalDate utcOffset now)) s
    (clickToday utcOffset now s) /\
  jumpsTo (afterDate (formatLocalDate utcOffset now)) s
    (clickUpcoming utcOffset now s) /\
  jumpsTo (onDate (formatLocalDate utcOffset (now + 86400000))) s
    (clickTomorrow utcOffset now s) /\
  (localDay utcOffset (now + 86400000) = localDay utcOffset now + 1 ->
   jumpsTo (onDate (tomorrowDate utcOffset now)) s
     (clickTomorrow utcOffset now s)).
Proof.
  intros Hne. pose proof (days_nonempty_length s Hne) as Hlen.
  unfold clickToday, clickUpcoming, clickTomorrow, goToday, goUpcoming,
    goTomorrow.
  rewrite Hlen.
  split; [apply jump_shape |]. split; [apply jump_shape |].
  split; [apply jump_shape |].
  intros Hnext. unfold tomorrowDate. rewrite <- Hnext. apply jump_shape.
Qed.

(** C8, at the input where the code departs from it. In New York on
    Saturday 8 March 2025 at 23:30 tomorrow is 9 March, a day of 23 hours,
    and the instant 24 hours later falls on 10 March. The card lists 8, 9
    and 10 March; the Tomorrow button computes "2025-03-10", selects the
    entry of 10 March and passes over the entry dated tomorrow. With 8 and
    9 March only, and tomorrow's entry selected, it moves the selection to
    index 0. *)
Theorem tomorrow_button_skips_tomorrow :
  formatLocalDate newYork2025 eveOfShortDay = "2025-03-08" /\
  tomorrowDate newYork2025 eveOfShortDay = "2025-03-09" /\
  index (days marchCard) 1 = Some march9 /\
  formatLocalDate newYork2025 (eveOfShortDay + 86400000) = "2025-03-10" /\
  currentIndex (clickTomorrow newYork2025 eveOfShortDay marchCard) = 2 /\
  currentDay (clickTomorrow newYork2025 eveOfShortDay marchCard)
  = Some march10 /\
  ~ jumpsTo (onDate (tomorrowDate newYork2025 eveOfShortDay)) marchCard
      (clickTomorrow newYork2025 eveOfShortDay marchCard) /\
  currentIndex
    (clickTomorrow newYork2025 eveOfShortDay
       (showing [march8; march9] 1 (initialState "7"))) = 0.
Proof.
  repeat (split; [vm_compute; reflexivity |]).
  split; [| vm_compute; reflexivity].
  intros (_ & Hfirst & _).
  assert (Hex : exists d, In d (days marchCard) /\
                          onDate (tomorrowDate newYork2025 eveOfShortDay) d
                          = true)
    by (exists march9; split; [right; left; reflexivity | vm_compute; reflexivity]).
  destruct (Hfirst Hex) as (_ & (d & Hd & Hp) & _).
  vm_compute in Hd. inversion Hd; subst d.
  vm_compute in Hp. discriminate.
Qed.

(** *** Sorting on load *)

Lemma sortInsert_Permutation {A : Type} (cmp : A -> A -> Z) (x : A)
      (l : list A) :
  Permutation (x :: l) (sortInsert cmp x l).
Proof.
  induction l as [| y l IH]; simpl.
  - apply Permutation_refl.
  - destruct (cmp x y <=? 0).
    + apply Permutation_refl.
    + eapply perm_trans; [apply perm_swap | apply perm_skip, IH].
Qed.

Lemma sort_Permutation {A : Type} (cmp : A -> A -> Z) (l : list A) :
  Permutation l (sort cmp l).
Proof.
  induction l as [| x l IH]; simpl.
  - apply perm_nil.
  - eapply perm_trans; [apply perm_skip, IH | apply sortInsert_Permutation].
Qed.

Lemma allISO_Permutation (l l' : list ScheduleDay) :
  Permutation l l' -> allISO l -> allISO l'.
Proof.
  unfold allISO. rewrite !List.Forall_forall. intros Hp H d Hin.
  apply H. apply (Permutation_in d (Permutation_sym Hp) Hin).
Qed.

Lemma codeUnitCompare_collates : collatesDates codeUnitCompare.
Proof.
  intros a b _ _. unfold codeUnitCompare.
  destruct (String.compare a b); reflexivity.
Qed.

Section Collation.

Variable localeCompare : string -> string -> Z.
Hypothesis collates : collatesDates localeCompare.

Lemma localeCompare_leb (a b : string) :
  isISODate a = true -> isISODate b = true ->
  (localeCompare a b <=? 0) = String.leb a b.
Proof.
  intros Ha Hb. unfold Z.leb, String.leb. rewrite (collates a b Ha Hb).
  destruct (String.compare a b); reflexivity.
Qed.

Lemma sortInsert_sorted (x : ScheduleDay) (l : list ScheduleDay) :
  isISODate (date x) = true -> allISO l -> sortedByDate l ->
  sortedByDate
    (sortInsert (fun a b => localeCompare (date a) (date b)) x l).
Proof.
  intros Hx Hiso Hs. induction Hs as [| y l Hs IH Hall]; simpl.
  - repeat constructor.
  - apply List.Forall_cons_iff in Hiso. destruct Hiso as [Hy Hiso].
    rewrite (localeCompare_leb _ _ Hx Hy).
    destruct (String.leb (date x) (date y)) eqn:Hxy.
    + constructor; [now constructor |].
      constructor; [exact Hxy |].
      rewrite List.Forall_forall in Hall |- *. intros d Hd.
      apply (leb_trans _ (date y)); [exact Hxy | now apply Hall].
    + assert (Hyx : String.leb (date y) (date x) = true)
        by (destruct (String.leb_total (date x) (date y)); congruence).
      constructor; [now apply IH |].
      rewrite List.Forall_forall in Hall |- *. intros d Hd.
      apply (Permutation_in d (Permutation_sym (sortInsert_Permutation _ x l)))
        in Hd.
      destruct Hd as [<- | Hd]; [exact Hyx | now apply Hall].
Qed.

Lemma sortDays_sorted (ds : list ScheduleDay) :
  allISO ds -> sortedByDate (sortDays localeCompare ds).
Proof.
  unfold sortDays. induction ds as [| x ds IH]; intros Hiso; simpl.
  - constructor.
  - apply List.Forall_cons_iff in Hiso. destruct Hiso as [Hx Hiso].
    apply sortInsert_sorted; [exact Hx | | now apply IH].
    apply (allISO_Permutation ds); [apply sort_Permutation | exact Hiso].
Qed.

End Collation.

(** Two lists sorted by date that hold the same days, no two of them on the
    same date, are the same list. *)
Lemma sortedByDate_unique (l1 l2 : list ScheduleDay) :
  sortedByDate l1 -> sortedByDate l2 -> Permutation l1 l2 ->
  List.NoDup (map date l1) -> l1 = l2.
Proof.
  intros Hs1. revert l2.
  induction Hs1 as [| x l1 Hs1 IH Hall1]; intros l2 Hs2 Hp Hnd.
  - apply Permutation_nil in Hp. now subst.
  - destruct Hs2 as [| y l2 Hs2 Hall2].
    + apply Permutation_sym, Permutation_nil in Hp. discriminate.
    + simpl in Hnd. apply List.NoDup_cons_iff in Hnd. destruct Hnd as [Hx Hnd].
      rewrite List.Forall_forall in Hall1, Hall2.
      assert (Hxy : x = y).
      { assert (Hx2 : In x (y :: l2))
          by (apply (Permutation_in x Hp); now left).
        assert (Hy1 : In y (x :: l1))
          by (apply (Permutation_in y (Permutation_sym Hp)); now left).
        destruct Hx2 as [-> | Hx2]; [reflexivity |].
        destruct Hy1 as [-> | Hy1]; [reflexivity |].
        exfalso. apply Hx.
        rewrite (String.leb_antisym _ _ (Hall1 y Hy1) (Hall2 x Hx2)).
        now apply in_map. }
      subst y. f_equal. apply IH; [exact Hs2 | | exact Hnd].
      now apply Permutation_cons_inv in Hp.
Qed.

Lemma navigation_keeps_days (s : State) (today tomorrow : string) :
  days (prev s) = days s /\ days (next s) = days s /\
  days (goToday today s) = days s /\ days (goTomorrow tomorrow s) = days s /\
  days (goUpcoming today s) = days s.
Proof.
  unfold prev, next, goToday, goTomorrow, goUpcoming.
  destruct (canPrev s), (canNext s), (length (days s) =? 0)%nat;
    repeat split; reflexivity.
Qed.

(** C10. After every successful load whose days carry [yyyy-MM-dd] dates,
    the stored day list is the response's days sorted ascending by date: it
    is sorted, it holds the same days, and (when no two days share a date)
    it is the same list for every order in which the backend lists them.
    The default selection is computed on this list, and the navigation
    handlers leave the list as it is. [localeCompare] is the host's; it is
    taken to order dates as their code units do. *)
Theorem load_sorts_days (localeCompare : string -> string -> Z)
        (today : string) (o : FetchOutcome) (data : ApiResponse)
        (s s' : State) :
  collatesDates localeCompare ->
  awaitResponse o = inr data ->
  allISO (responseDays data) ->
  s' = load localeCompare today o s ->
  days s' = sortDays localeCompare (responseDays data) /\
  sortedByDate (days s') /\
  Permutation (responseDays data) (days s') /\
  (forall ds,
     Permutation (responseDays data) ds -> List.NoDup (map date ds) ->
     sortDays localeCompare ds = days s') /\
  currentIndex s' = initialSelection (days s') today /\
  forall today' tomorrow,
    days (prev s') = days s' /\ days (next s') = days s' /\
    days (goToday today' s') = days s' /\
    days (goTomorrow tomorrow s') = days s' /\
    days (goUpcoming today' s') = days s'.
Proof.
  intros Hcol Hok Hiso ->.
  assert (Hdays : days (load localeCompare today o s)
                  = sortDays localeCompare (responseDays data))
    by (unfold load, load_settle; rewrite Hok; reflexivity).
  assert (Hidx : currentIndex (load localeCompare today o s)
                 = initialSelection
                     (sortDays localeCompare (responseDays data)) today)
    by (unfold load, load_settle; rewrite Hok; reflexivity).
  rewrite Hidx, Hdays.
  split; [reflexivity |].
  split; [now apply sortDays_sorted |].
  split; [apply sort_Permutation |].
  split; [| split; [reflexivity |]].
  - intros ds Hp Hnd.
    assert (Hiso' : allISO ds) by (apply (allISO_Permutation _ _ Hp Hiso)).
    apply sortedByDate_unique.
    + now apply sortDays_sorted.
    + now apply sortDays_sorted.
    + eapply perm_trans; [apply Permutation_sym, sort_Permutation |].
      eapply perm_trans; [apply Permutation_sym, Hp |].
      apply sort_Permutation.
    + apply (Permutation_NoDup (l := map date ds)); [| exact Hnd].
      apply Permutation_map, sort_Permutation.
  - intros today' tomorrow. rewrite <- Hdays.
    apply navigation_keeps_days.
Qed.

Lemma load_sorts_days_witness :
  days (load codeUnitCompare "2025-01-07" unsortedResponse (initialState "7"))
  = [tuesday; wednesday].
Proof.
  assert (Hiso : allISO [wednesday; tuesday]) by (repeat constructor).
  destruct (load_sorts_days codeUnitCompare "2025-01-07" unsortedResponse
              unsortedData (initialState "7") _
              codeUnitCompare_collates eq_refl Hiso eq_refl) as [H _].
  exact H.
Defined.

End RendererProofs.

(** * The calendar form: further properties *)

Module BuilderExtras.
Import Builder BuilderProofs.

(** *** The schedule index *)

Lemma scheduleFold_absent (ds : list ScheduleDay)
      (acc : gmap string ScheduleDay) (k : string) :
  (forall d, In d ds -> date d <> k) ->
  fold_left (fun acc day => <[date day := day]> acc) ds acc !! k = acc !! k.
Proof.
  revert acc. induction ds as [| x ds IH]; intros acc Hno; simpl.
  - reflexivity.
  - rewrite IH by (intros d Hd; apply Hno; now right).
    apply lookup_insert_ne. apply Hno. now left.
Qed.

Lemma scheduleFold_sound (ds : list ScheduleDay)
      (acc : gmap string ScheduleDay) (k : string) (d : ScheduleDay) :
  fold_left (fun acc day => <[date day := day]> acc) ds acc !! k = Some d ->
  acc !! k = Some d \/ (In d ds /\ date d = k).
Proof.
  revert acc. induction ds as [| x ds IH]; intros acc H; simpl in *.
  - now left.
  - destruct (IH _ H) as [Hacc | [Hin Hk]].
    + rewrite lookup_insert in Hacc. case_decide.
      * inversion Hacc; subst. right. split; [now left | reflexivity].
      * now left.
    + right. split; [now right | exact Hk].
Qed.

Lemma scheduleFold_keeps (ds : list ScheduleDay)
      (acc : gmap string ScheduleDay) (k : string) :
  is_Some (acc !! k) ->
  is_Some (fold_left (fun acc day => <[date day := day]> acc) ds acc !! k).
Proof.
  revert acc. induction ds as [| x ds IH]; intros acc H; simpl.
  - exact H.
  - apply IH. rewrite lookup_insert. case_decide; [eauto | exact H].
Qed.

Lemma scheduleFold_present (ds : list ScheduleDay)
      (acc : gmap string ScheduleDay) (d : ScheduleDay) :
  In d ds ->
  is_Some
    (fold_left (fun acc day => <[date day := day]> acc) ds acc !! date d).
Proof.
  revert acc. induction ds as [| x ds IH]; intros acc Hin; simpl.
  - destruct Hin.
  - destruct Hin as [-> | Hin].
    + apply scheduleFold_keeps. rewrite lookup_insert_eq. eauto.
    + now apply IH.
Qed.

Lemma scheduleMap_absent_iff (ds : list ScheduleDay) (k : string) :
  scheduleMap ds !! k = None <-> forall d, In d ds -> date d <> k.
Proof.
  unfold scheduleMap. split.
  - intros Hnone d Hin Hk. subst k.
    destruct (scheduleFold_present ds ∅ d Hin) as [d' Hd'].
    rewrite Hd' in Hnone. discriminate.
  - intros Hno. rewrite scheduleFold_absent by exact Hno.
    apply lookup_empty.
Qed.

(** X1. A cell finds a day in the index exactly when the response holds a day
    with the cell's date, and what it finds is a day of the response with
    that date. *)
Theorem scheduleMap_lookup (ds : list ScheduleDay) (k : string) :
  (forall d, scheduleMap ds !! k = Some d -> In d ds /\ date d = k) /\
  (scheduleMap ds !! k = None <-> forall d, In d ds -> date d <> k).
Proof.
  split; [| apply scheduleMap_absent_iff].
  unfold scheduleMap.
  intros d H. destruct (scheduleFold_sound _ _ _ _ H) as [Hacc | Hin].
  - rewrite lookup_empty in Hacc. discriminate.
  - exact Hin.
Qed.

Lemma scheduleMap_monday_only : scheduleMap [monday] !! "2025-01-07" = None.
Proof.
  unfold scheduleMap. simpl.
  rewrite lookup_insert_ne by discriminate. apply lookup_empty.
Qed.

Lemma scheduleMap_lookup_witness :
  scheduleMap [monday] !! "2025-01-07" = None.
Proof.
  apply (proj2 (scheduleMap_lookup [monday] "2025-01-07")).
  intros d [<- | []]. discriminate.
Defined.

(** X2. When the response lists several days with one date, the index keeps the
    last of them; when all dates differ, every day is found under its own
    date. *)
Theorem scheduleMap_last_wins (l1 l2 : list ScheduleDay) (d : ScheduleDay) :
  ((forall d', In d' l2 -> date d' <> date d) ->
   scheduleMap (l1 ++ d :: l2) !! date d = Some d) /\
  (List.NoDup (map date (l1 ++ d :: l2)) ->
   scheduleMap (l1 ++ d :: l2) !! date d = Some d).
Proof.
  assert (Hlast : (forall d', In d' l2 -> date d' <> date d) ->
                  scheduleMap (l1 ++ d :: l2) !! date d = Some d).
  { intros Hno. unfold scheduleMap. rewrite fold_left_app. simpl.
    rewrite scheduleFold_absent by exact Hno. apply lookup_insert_eq. }
  split; [exact Hlast |].
  intros Hnd. apply Hlast. intros d' Hin Heq.
  rewrite map_app in Hnd. simpl in Hnd.
  apply List.NoDup_remove_2 in Hnd. apply Hnd.
  apply in_or_app. right. rewrite <- Heq. now apply in_map.
Qed.

Lemma scheduleMap_last_wins_witness :
  scheduleMap
    ([monday]
       ++ {| date := "2025-01-06"; items := []; summary := Some "again" |}
       :: [])
    !! "2025-01-06"
  = Some {| date := "2025-01-06"; items := []; summary := Some "again" |}.
Proof.
  apply (proj1 (scheduleMap_last_wins [monday] []
                  {| date := "2025-01-06"; items := [];
                     summary := Some "again" |})).
  intros d' [].
Defined.

(** *** Generate and save *)

(** X3. After a generate or a save that succeeds, the index is built from the
    response alone: a cell is without a scheduled day exactly when the
    response has no day with its date, whatever was shown before, and
    nothing is logged. *)
Theorem successful_call_replaces_schedule (o : FetchOutcome)
        (data : ApiResponse) (s : State) :
  truthy (courseId s) = true ->
  awaitResponse o = inr data ->
  scheduledTasks (handleSubmit o s) = scheduleMap (responseDays data) /\
  scheduledTasks (handlePersist o s) = scheduleMap (responseDays data) /\
  console (handleSubmit o s) = console s /\
  console (handlePersist o s) = console s /\
  forall k,
    (scheduledDay k (handleSubmit o s) = None <->
     forall d, In d (responseDays data) -> date d <> k) /\
    (scheduledDay k (handlePersist o s) = None <->
     forall d, In d (responseDays data) -> date d <> k).
Proof.
  intros Hcid Hok.
  assert (Hs : scheduledTasks (handleSubmit o s)
               = scheduleMap (responseDays data))
    by (unfold handleSubmit, handleSubmit_settle; rewrite Hcid, Hok;
        reflexivity).
  assert (Hp : scheduledTasks (handlePersist o s)
               = scheduleMap (responseDays data))
    by (unfold handlePersist, handlePersist_settle; rewrite Hcid, Hok;
        reflexivity).
  split; [exact Hs |]. split; [exact Hp |].
  split; [unfold handleSubmit, handleSubmit_settle; rewrite Hcid, Hok;
          reflexivity |].
  split; [unfold handlePersist, handlePersist_settle; rewrite Hcid, Hok;
          reflexivity |].
  intros k. unfold scheduledDay. rewrite Hs, Hp.
  split; apply scheduleMap_absent_iff.
Qed.

Lemma successful_call_replaces_schedule_witness :
  scheduledDay "2025-01-06"
    (handleSubmit (FetchResolves 200 (JsonResolves {| schedule := None |}))
       showingMonday)
  = None.
Proof.
  destruct (successful_call_replaces_schedule
              (FetchResolves 200 (JsonResolves {| schedule := None |}))
              {| schedule := None |} showingMonday eq_refl eq_refl)
    as [_ [_ [_ [_ H]]]].
  apply (proj1 (H "2025-01-06")). intros d [].
Defined.

(** X4. Generate and save never change the draft, whatever the outcome; each
    lowers its own busy flag and leaves the other's; without a course id
    they do nothing at all. *)
Theorem calls_keep_draft (o : FetchOutcome) (s : State) :
  sameDraft s (handleSubmit o s) /\
  sameDraft s (handlePersist o s) /\
  (truthy (courseId s) = true ->
   isLoading (handleSubmit o s) = false /\
   isSaving (handleSubmit o s) = isSaving s /\
   isSaving (handlePersist o s) = false /\
   isLoading (handlePersist o s) = isLoading s) /\
  (truthy (courseId s) = false ->
   handleSubmit o s = s /\ handlePersist o s = s).
Proof.
  unfold handleSubmit, handlePersist, handleSubmit_settle,
    handlePersist_settle, sameDraft.
  destruct (truthy (courseId s)); destruct (awaitResponse o); simpl;
    repeat split; try reflexivity; intros; discriminate.
Qed.

Lemma calls_keep_draft_witness :
  isLoading (handleSubmit (FetchRejects "offline") showingMonday) = false.
Proof.
  destruct (calls_keep_draft (FetchRejects "offline") showingMonday)
    as [_ [_ [H _]]].
  apply (H eq_refl).
Defined.

(** *** Excluded dates *)

Lemma includesS_not_In (l : list string) (x : string) :
  includesS l x = false <-> ~ In x l.
Proof.
  rewrite <- includesS_In. destruct (includesS l x); split; congruence.
Qed.

Lemma filter_other_dates_In (l : list string) (d y : string) :
  In y (List.filter (fun x => negb (String.eqb x d)) l) <-> In y l /\ y <> d.
Proof. rewrite filter_In, negb_true_iff, String.eqb_neq. tauto. Qed.

Lemma filter_all {A : Type} (p : A -> bool) (l : list A) :
  (forall x, In x l -> p x = true) -> List.filter p l = l.
Proof.
  induction l as [| x l IH]; intros H; simpl; [reflexivity |].
  rewrite (H x (or_introl eq_refl)). f_equal. apply IH.
  intros y Hy. apply H. now right.
Qed.

Lemma filter_appended_date (l : list string) (d : string) :
  ~ In d l -> List.filter (fun x => negb (String.eqb x d)) (l ++ [d]) = l.
Proof.
  intros Hnin. rewrite List.filter_app. simpl. rewrite String.eqb_refl. simpl.
  rewrite app_nil_r. apply filter_all. intros x Hx.
  apply negb_true_iff, String.eqb_neq. congruence.
Qed.

Lemma filter_appended_weekday (l : list Z) (i : Z) :
  ~ In i l -> List.filter (fun d => negb (d =? i)) (l ++ [i]) = l.
Proof.
  intros Hnin. rewrite List.filter_app. simpl. rewrite Z.eqb_refl. simpl.
  rewrite app_nil_r. apply filter_all. intros x Hx.
  apply negb_true_iff, Z.eqb_neq. congruence.
Qed.

Lemma setExcludeDates_same (s : State) (l : list string) :
  l = excludeDates s -> setExcludeDates (fun _ => l) s = s.
Proof. intros ->. destruct s; reflexivity. Qed.

Lemma handleDateClick_absent (d : string) (s : State) :
  ~ In d (excludeDates s) ->
  handleDateClick d s = setExcludeDates (fun _ => excludeDates s ++ [d]) s.
Proof.
  intros Hnin. apply includesS_not_In in Hnin.
  unfold handleDateClick, setExcludeDates. rewrite Hnin. reflexivity.
Qed.

Lemma handleDateClick_present (d : string) (s : State) :
  In d (excludeDates s) ->
  handleDateClick d s
  = setExcludeDates
      (fun _ => List.filter (fun x => negb (String.eqb x d)) (excludeDates s))
      s.
Proof.
  intros Hin. apply includesS_In in Hin.
  unfold handleDateClick, setExcludeDates. rewrite Hin. reflexivity.
Qed.

Lemma handleAddExcludedDate_shape (d : string) (s : State) :
  (d <> EmptyString -> ~ In d (excludeDates s) ->
   handleAddExcludedDate d s
   = setExcludeDates (fun _ => excludeDates s ++ [d]) s) /\
  (d = EmptyString \/ In d (excludeDates s) -> handleAddExcludedDate d s = s).
Proof.
  unfold handleAddExcludedDate. split.
  - intros Hne Hnin. rewrite (proj2 (String.eqb_neq _ _) Hne).
    rewrite (proj2 (includesS_not_In _ _) Hnin). destruct s; reflexivity.
  - intros [-> | Hin]; [reflexivity |].
    rewrite (proj2 (includesS_In _ _) Hin), andb_false_r. reflexivity.
Qed.

Lemma handleDateClick_undo (d : string) (s : State) :
  ~ In d (excludeDates s) -> handleDateClick d (handleDateClick d s) = s.
Proof.
  intros Hnin. rewrite (handleDateClick_absent d s Hnin).
  rewrite handleDateClick_present
    by (simpl; apply in_app_iff; right; now left).
  simpl. rewrite (filter_appended_date _ _ Hnin). destruct s; reflexivity.
Qed.

(** X5. Two clicks on the same calendar cell: when the date was not excluded,
    the form is exactly as before; when it was, the same dates are excluded
    as before, the clicked one now last in the list. *)
Theorem handleDateClick_twice (d : string) (s : State) :
  (~ In d (excludeDates s) ->
   handleDateClick d (handleDateClick d s) = s) /\
  (In d (excludeDates s) ->
   excludeDates (handleDateClick d (handleDateClick d s))
   = List.filter (fun x => negb (String.eqb x d)) (excludeDates s) ++ [d] /\
   forall x, In x (excludeDates (handleDateClick d (handleDateClick d s)))
             <-> In x (excludeDates s)).
Proof.
  split.
  - apply handleDateClick_undo.
  - intros Hin.
    assert (E : excludeDates (handleDateClick d (handleDateClick d s))
                = List.filter (fun x => negb (String.eqb x d)) (excludeDates s)
                    ++ [d]).
    { rewrite (handleDateClick_present d s Hin).
      rewrite handleDateClick_absent
        by (simpl; rewrite filter_other_dates_In; tauto).
      reflexivity. }
    split; [exact E |].
    intros x. rewrite E, in_app_iff, filter_other_dates_In. simpl.
    destruct (string_dec x d) as [-> | Hne]; [tauto |].
    intuition congruence.
Qed.

Lemma handleDateClick_twice_witness :
  handleDateClick "2025-01-06" (handleDateClick "2025-01-06" showingMonday)
  = showingMonday.
Proof.
  apply (proj1 (handleDateClick_twice "2025-01-06" showingMonday)).
  intros [].
Defined.

(** X6. The date input adds a date at the end of the list when it is not empty
    and not yet excluded, which is what a click on that date's cell does;
    otherwise it changes nothing. It never removes a date and never lists a
    date twice, so typing the same date again has no effect. *)
Theorem handleAddExcludedDate_adds_once (d : string) (s : State) :
  (d <> EmptyString -> ~ In d (excludeDates s) ->
   excludeDates (handleAddExcludedDate d s) = excludeDates s ++ [d] /\
   handleAddExcludedDate d s = handleDateClick d s) /\
  (d = EmptyString \/ In d (excludeDates s) -> handleAddExcludedDate d s = s) /\
  handleAddExcludedDate d (handleAddExcludedDate d s)
  = handleAddExcludedDate d s /\
  (forall x, In x (excludeDates s) ->
             In x (excludeDates (handleAddExcludedDate d s))) /\
  (List.NoDup (excludeDates s) ->
   List.NoDup (excludeDates (handleAddExcludedDate d s))).
Proof.
  pose proof (proj2 (handleAddExcludedDate_shape d s)) as Hskip.
  pose proof (proj1 (handleAddExcludedDate_shape d s)) as Hadd.
  split; [| split; [exact Hskip | split; [| split]]].
  - intros Hne Hnin. rewrite (Hadd Hne Hnin). split; [reflexivity |].
    symmetry. now apply handleDateClick_absent.
  - destruct (string_dec d EmptyString) as [He | Hne].
    + now rewrite !Hskip by (left; exact He).
    + destruct (in_dec string_dec d (excludeDates s)) as [Hin | Hnin].
      * now rewrite !Hskip by (right; exact Hin).
      * apply (proj2 (handleAddExcludedDate_shape d _)). right.
        rewrite (Hadd Hne Hnin). simpl. apply in_app_iff. right. now left.
  - intros x Hx. destruct (string_dec d EmptyString) as [He | Hne].
    + now rewrite Hskip by (left; exact He).
    + destruct (in_dec string_dec d (excludeDates s)) as [Hin | Hnin].
      * now rewrite Hskip by (right; exact Hin).
      * rewrite (Hadd Hne Hnin). simpl. apply in_app_iff. now left.
  - intros Hnd. destruct (string_dec d EmptyString) as [He | Hne].
    + now rewrite Hskip by (left; exact He).
    + destruct (in_dec string_dec d (excludeDates s)) as [Hin | Hnin].
      * now rewrite Hskip by (right; exact Hin).
      * rewrite (Hadd Hne Hnin). simpl.
        apply List.NoDup_app; [exact Hnd | |].
        -- constructor; [intros [] | constructor].
        -- intros a Ha [<- | []]. contradiction.
Qed.

Lemma handleAddExcludedDate_adds_once_witness :
  excludeDates (handleAddExcludedDate "2025-01-06" showingMonday)
  = ["2025-01-06"] /\
  handleAddExcludedDate "2025-01-06"
    (handleAddExcludedDate "2025-01-06" showingMonday)
  = handleAddExcludedDate "2025-01-06" showingMonday.
Proof.
  split.
  - apply (proj1 (handleAddExcludedDate_adds_once "2025-01-06" showingMonday)).
    + discriminate.
    + intros [].
  - apply (proj1 (proj2 (proj2
             (handleAddExcludedDate_adds_once "2025-01-06" showingMonday)))).
Defined.

(** X7. The cross on a chip removes that date and no other, keeps the order of
    the rest, does what a click on the excluded date's cell does, and undoes
    the date input. *)
Theorem removeExcludedDate_undoes_add (d : string) (s : State) :
  ~ In d (excludeDates (removeExcludedDate d s)) /\
  (forall x, In x (excludeDates (removeExcludedDate d s))
             <-> In x (excludeDates s) /\ x <> d) /\
  (In d (excludeDates s) -> removeExcludedDate d s = handleDateClick d s) /\
  (~ In d (excludeDates s) ->
   removeExcludedDate d s = s /\
   removeExcludedDate d (handleAddExcludedDate d s) = s) /\
  (List.NoDup (excludeDates s) ->
   List.NoDup (excludeDates (removeExcludedDate d s))).
Proof.
  assert (Hid : ~ In d (excludeDates s) -> removeExcludedDate d s = s).
  { intros Hnin. unfold removeExcludedDate.
    assert (E : List.filter (fun date => negb (String.eqb date d))
                  (excludeDates s) = excludeDates s).
    { apply filter_all. intros x Hx.
      apply negb_true_iff, String.eqb_neq. congruence. }
    unfold setExcludeDates. rewrite E. destruct s; reflexivity. }
  split; [| split; [| split; [| split]]].
  - simpl. rewrite filter_other_dates_In. tauto.
  - intros x. simpl. apply filter_other_dates_In.
  - intros Hin. rewrite (handleDateClick_present d s Hin).
    unfold removeExcludedDate. destruct s; reflexivity.
  - intros Hnin. split; [exact (Hid Hnin) |].
    destruct (string_dec d EmptyString) as [He | Hne].
    + rewrite (proj2 (handleAddExcludedDate_shape d s))
        by (left; exact He).
      exact (Hid Hnin).
    + rewrite (proj1 (handleAddExcludedDate_shape d s) Hne Hnin).
      unfold removeExcludedDate, setExcludeDates. simpl.
      rewrite (filter_appended_date _ _ Hnin). destruct s; reflexivity.
  - intros Hnd. simpl. now apply List.NoDup_filter.
Qed.

Lemma removeExcludedDate_undoes_add_witness :
  removeExcludedDate "2025-01-06"
    (handleAddExcludedDate "2025-01-06" showingMonday)
  = showingMonday.
Proof.
  apply (proj1 (proj2 (proj2 (proj2
           (removeExcludedDate_undoes_add "2025-01-06" showingMonday))))).
  intros [].
Defined.

(** *** Clicking twice *)

Lemma fold_setAdd_NoDup_id (l acc : list Z) :
  List.NoDup (acc ++ l) -> fold_left setAdd l acc = acc ++ l.
Proof.
  revert acc. induction l as [| x l IH]; intros acc Hnd; simpl.
  - now rewrite app_nil_r.
  - assert (Hx : ~ In x acc).
    { intros Hin. apply List.NoDup_remove_2 in Hnd. apply Hnd.
      apply in_or_app. now left. }
    unfold setAdd at 2. rewrite (proj2 (includesZ_not_In _ _) Hx).
    rewrite IH; rewrite <- app_assoc; [reflexivity | exact Hnd].
Qed.

(** Spreading a set of an array without duplicates gives the array back. *)
Lemma setSpread_NoDup_id (l : list Z) : List.NoDup l -> setSpread l = l.
Proof. intros H. unfold setSpread. now rewrite fold_setAdd_NoDup_id. Qed.

Lemma toggleIncludeWeekends_frame (s : State) :
  toggleIncludeWeekends s
  = setExcludeWeekdays
      (fun _ => excludeWeekdays (toggleIncludeWeekends s))
      (setIncludeWeekends (negb (includeWeekends s)) s).
Proof.
  unfold toggleIncludeWeekends, commit, includeWeekendsEffect.
  destruct s as [? ? ? [] ? ? ? ? ? ? ? ? ? ?]; reflexivity.
Qed.

(** X8. Two clicks on the weekend switch restore the flag. Starting with
    weekends off (0 and 6 excluded), the same weekdays are excluded as
    before; starting with weekends on (neither excluded, no duplicate), the
    form is exactly as before. *)
Theorem toggleIncludeWeekends_twice (s : State) :
  includeWeekends (toggleIncludeWeekends (toggleIncludeWeekends s))
  = includeWeekends s /\
  (includeWeekends s = false -> coupling_off s ->
   forall d,
     In d (excludeWeekdays (toggleIncludeWeekends (toggleIncludeWeekends s)))
     <-> In d (excludeWeekdays s)) /\
  (includeWeekends s = true -> coupling_on s ->
   List.NoDup (excludeWeekdays s) ->
   toggleIncludeWeekends (toggleIncludeWeekends s) = s).
Proof.
  split; [| split].
  - rewrite !toggleIncludeWeekends_flag. apply negb_involutive.
  - intros Hoff Hc d. destruct (Hc Hoff) as [H0 H6].
    rewrite toggleIncludeWeekends_off
      by (rewrite toggleIncludeWeekends_flag, Hoff; reflexivity).
    rewrite (toggleIncludeWeekends_on s Hoff).
    rewrite setSpread_In, in_app_iff, filter_notWeekend_In. simpl.
    destruct (Z.eq_dec d 0) as [-> | N0]; [tauto |].
    destruct (Z.eq_dec d 6) as [-> | N6]; [tauto |].
    intuition congruence.
  - intros Hon Hc Hnd. destruct (Hc Hon) as [N0 N6].
    assert (Hnd' : List.NoDup (excludeWeekdays s ++ [0; 6])).
    { apply List.NoDup_app; [exact Hnd | |].
      - constructor; [intros [E | []]; discriminate |].
        constructor; [intros [] | constructor].
      - intros a Ha [<- | [<- | []]]; contradiction. }
    assert (E1 : excludeWeekdays (toggleIncludeWeekends s)
                 = excludeWeekdays s ++ [0; 6])
      by (rewrite (toggleIncludeWeekends_off s Hon);
          now apply setSpread_NoDup_id).
    assert (E2 : excludeWeekdays
                   (toggleIncludeWeekends (toggleIncludeWeekends s))
                 = excludeWeekdays s).
    { rewrite toggleIncludeWeekends_on
        by (rewrite toggleIncludeWeekends_flag, Hon; reflexivity).
      rewrite E1, List.filter_app. simpl. rewrite app_nil_r.
      apply filter_all. intros x Hx. apply notWeekend_true.
      split; congruence. }
    rewrite (toggleIncludeWeekends_frame (toggleIncludeWeekends s)).
    rewrite E2, toggleIncludeWeekends_flag, Hon.
    rewrite (toggleIncludeWeekends_frame s), Hon.
    destruct s; simpl in *; subst; reflexivity.
Qed.

Lemma toggleIncludeWeekends_twice_witness :
  toggleIncludeWeekends
    (toggleIncludeWeekends
       (toggleIncludeWeekends
          (mount "2025-01-06" (initialState (Some "7") 0))))
  = toggleIncludeWeekends (mount "2025-01-06" (initialState (Some "7") 0)).
Proof.
  apply (proj2 (proj2
           (toggleIncludeWeekends_twice
              (toggleIncludeWeekends
                 (mount "2025-01-06" (initialState (Some "7") 0)))))).
  - reflexivity.
  - intros _. split; intros [].
  - constructor.
Defined.

(** X9. Two clicks on a weekday button. Excluding a day and re-including it
    leaves the form exactly as before when the day is a working day or
    weekends are on. Re-including Sunday or Saturday while weekends are off
    and excluding it again does not: weekends stay on and the other weekend
    day stays included. *)
Theorem handleWeekdayToggle_twice (i : Z) (s : State) :
  (~ In i (excludeWeekdays s) ->
   (i <> 0 /\ i <> 6) \/ includeWeekends s = true ->
   handleWeekdayToggle i (handleWeekdayToggle i s) = s) /\
  (i = 0 \/ i = 6 -> In i (excludeWeekdays s) -> includeWeekends s = false ->
   includeWeekends (handleWeekdayToggle i (handleWeekdayToggle i s)) = true /\
   excludeWeekdays (handleWeekdayToggle i (handleWeekdayToggle i s))
   = List.filter notWeekend (excludeWeekdays s) ++ [i]).
Proof.
  split.
  - intros Hnin Hcase.
    destruct (handleWeekdayToggle_add i s (proj2 (includesZ_not_In _ _) Hnin))
      as [F1 L1].
    assert (Hin1 : includesZ (excludeWeekdays (handleWeekdayToggle i s)) i
                   = true)
      by (rewrite L1; apply includesZ_In, in_app_iff; right; now left).
    assert (H2 : includeWeekends
                   (handleWeekdayToggle i (handleWeekdayToggle i s))
                 = includeWeekends s /\
                 excludeWeekdays
                   (handleWeekdayToggle i (handleWeekdayToggle i s))
                 = excludeWeekdays s).
    { destruct (Z.eq_dec i 0) as [E0 | N0];
        [| destruct (Z.eq_dec i 6) as [E6 | N6]].
      - assert (Hon : includeWeekends s = true) by (destruct Hcase; [lia | auto]).
        destruct (handleWeekdayToggle_reinclude_on i (handleWeekdayToggle i s))
          as [F2 L2]; auto; [congruence |].
        rewrite F2, L2, L1, (filter_appended_weekday _ _ Hnin). auto.
      - assert (Hon : includeWeekends s = true) by (destruct Hcase; [lia | auto]).
        destruct (handleWeekdayToggle_reinclude_on i (handleWeekdayToggle i s))
          as [F2 L2]; auto; [congruence |].
        rewrite F2, L2, L1, (filter_appended_weekday _ _ Hnin). auto.
      - destruct (handleWeekdayToggle_remove_weekday i
                    (handleWeekdayToggle i s) N0 N6 Hin1) as [F2 L2].
        rewrite F2, L2, L1, F1, (filter_appended_weekday _ _ Hnin). auto. }
    destruct H2 as [F2 L2].
    rewrite (handleWeekdayToggle_frame i (handleWeekdayToggle i s)).
    rewrite F2, L2. rewrite (handleWeekdayToggle_frame i s), F1.
    destruct s; simpl in *; subst; reflexivity.
  - intros Hi Hin Hoff.
    destruct (handleWeekdayToggle_reinclude_off i s Hi
                (proj2 (includesZ_In _ _) Hin) Hoff) as [F1 L1].
    rewrite (filter_notWeekend_absorbs _ i Hi) in L1.
    assert (Hnin1 : includesZ (excludeWeekdays (handleWeekdayToggle i s)) i
                    = false).
    { apply includesZ_not_In. rewrite L1, filter_notWeekend_In.
      destruct Hi; subst; tauto. }
    destruct (handleWeekdayToggle_add i (handleWeekdayToggle i s) Hnin1)
      as [F2 L2].
    rewrite F2, L2, F1, L1. auto.
Qed.

Lemma handleWeekdayToggle_twice_witness :
  handleWeekdayToggle 3
    (handleWeekdayToggle 3 (mount "2025-01-06" (initialState (Some "7") 0)))
  = mount "2025-01-06" (initialState (Some "7") 0) /\
  excludeWeekdays
    (handleWeekdayToggle 0
       (handleWeekdayToggle 0
          (mount "2025-01-06" (initialState (Some "7") 0))))
  = [0].
Proof.
  split.
  - apply (proj1 (handleWeekdayToggle_twice 3
                    (mount "2025-01-06" (initialState (Some "7") 0)))).
    + simpl. intros [H | [H | []]]; discriminate.
    + left. split; discriminate.
  - apply (proj2 (handleWeekdayToggle_twice 0
                    (mount "2025-01-06" (initialState (Some "7") 0)))).
    + now left.
    + simpl. now left.
    + reflexivity.
Defined.

(** *** The states the form can reach *)

Lemma isISODate_nonempty (t : string) : isISODate t = true -> t <> EmptyString.
Proof. intros H ->. discriminate. Qed.

Lemma draftWellFormed_same (s s' : State) :
  sameDraft s s' -> draftWellFormed s -> draftWellFormed s'.
Proof.
  unfold sameDraft, draftWellFormed, coupling_off.
  intros (Hs & Hw & Hl & Hd & _) H. rewrite Hs, Hw, Hl, Hd. exact H.
Qed.

Lemma handleWeekdayToggle_NoDup (i : Z) (s : State) :
  List.NoDup (excludeWeekdays s) ->
  List.NoDup (excludeWeekdays (handleWeekdayToggle i s)).
Proof.
  intros Hnd. destruct (includesZ (excludeWeekdays s) i) eqn:Hex.
  - destruct (Z.eq_dec i 0) as [E0 | N0];
      [| destruct (Z.eq_dec i 6) as [E6 | N6]].
    + destruct (includeWeekends s) eqn:Hw.
      * destruct (handleWeekdayToggle_reinclude_on i s) as [_ L]; auto.
        rewrite L. now apply List.NoDup_filter.
      * destruct (handleWeekdayToggle_reinclude_off i s) as [_ L]; auto.
        rewrite L. now repeat apply List.NoDup_filter.
    + destruct (includeWeekends s) eqn:Hw.
      * destruct (handleWeekdayToggle_reinclude_on i s) as [_ L]; auto.
        rewrite L. now apply List.NoDup_filter.
      * destruct (handleWeekdayToggle_reinclude_off i s) as [_ L]; auto.
        rewrite L. now repeat apply List.NoDup_filter.
    + destruct (handleWeekdayToggle_remove_weekday i s N0 N6 Hex) as [_ L].
      rewrite L. now apply List.NoDup_filter.
  - destruct (handleWeekdayToggle_add i s Hex) as [_ L]. rewrite L.
    apply includesZ_not_In in Hex.
    apply List.NoDup_app; [exact Hnd | |].
    + constructor; [intros [] | constructor].
    + intros a Ha [<- | []]. contradiction.
Qed.

Lemma toggleIncludeWeekends_NoDup (s : State) :
  List.NoDup (excludeWeekdays s) ->
  List.NoDup (excludeWeekdays (toggleIncludeWeekends s)).
Proof.
  intros Hnd. destruct (includeWeekends s) eqn:Hw.
  - rewrite (toggleIncludeWeekends_off s Hw). apply setSpread_NoDup.
  - rewrite (toggleIncludeWeekends_on s Hw). now apply List.NoDup_filter.
Qed.

Ltac split_draft := split; [| split; [| split]].

Lemma event_keeps_draftWellFormed (s s' : State) :
  event s s' -> draftWellFormed s -> draftWellFormed s'.
Proof.
  intros Hev Hwf. pose proof Hwf as (Hw & Hd & Hc & Hs).
  destruct Hev as [today value s Hiso | s | i s | d s | d s | d s | d s | s
                   | s Hcid | o s | s Hcid | o s].
  - unfold handleStartDateChange, startDateEffect.
    destruct (String.eqb_spec (startDate s) value) as [_ | _]; [exact Hwf |].
    cbn [startDate setStartDate].
    destruct (String.eqb_spec value EmptyString) as [-> | Hne].
    + split_draft; [exact Hw | exact Hd | exact Hc |].
      now apply isISODate_nonempty.
    + split_draft; [exact Hw | exact Hd | exact Hc | exact Hne].
  - split_draft.
    + now apply toggleIncludeWeekends_NoDup.
    + rewrite toggleIncludeWeekends_frame. exact Hd.
    + apply (toggle_preserves_coupling_off s _ (toggle_weekends s) Hc).
    + rewrite toggleIncludeWeekends_frame. exact Hs.
  - split_draft.
    + now apply handleWeekdayToggle_NoDup.
    + rewrite handleWeekdayToggle_frame. exact Hd.
    + apply (toggle_preserves_coupling_off s _ (toggle_weekday i s) Hc).
    + rewrite handleWeekdayToggle_frame. exact Hs.
  - split_draft; [exact Hw | | exact Hc | exact Hs].
    destruct (in_dec string_dec d (excludeDates s)) as [Hin | Hnin].
    + rewrite (handleDateClick_present d s Hin). simpl.
      now apply List.NoDup_filter.
    + rewrite (handleDateClick_absent d s Hnin). simpl.
      apply List.NoDup_app; [exact Hd | |].
      * constructor; [intros [] | constructor].
      * intros a Ha [<- | []]. contradiction.
  - destruct (string_dec d EmptyString) as [He | Hne].
    + now rewrite (proj2 (handleAddExcludedDate_shape d s)) by (now left).
    + destruct (in_dec string_dec d (excludeDates s)) as [Hin | Hnin].
      * now rewrite (proj2 (handleAddExcludedDate_shape d s)) by (now right).
      * rewrite (proj1 (handleAddExcludedDate_shape d s) Hne Hnin).
        split_draft; [exact Hw | | exact Hc | exact Hs]. simpl.
        apply List.NoDup_app; [exact Hd | |].
        -- constructor; [intros [] | constructor].
        -- intros a Ha [<- | []]. contradiction.
  - split_draft; [exact Hw | | exact Hc | exact Hs].
    simpl. now apply List.NoDup_filter.
  - apply (draftWellFormed_same s); [| exact Hwf].
    unfold handleMouseEnter, sameDraft.
    destruct (scheduledDay d s); repeat split; reflexivity.
  - apply (draftWellFormed_same s); [| exact Hwf].
    unfold sameDraft. repeat split; reflexivity.
  - apply (draftWellFormed_same s); [| exact Hwf].
    unfold sameDraft. repeat split; reflexivity.
  - apply (draftWellFormed_same s); [| exact Hwf].
    unfold handleSubmit_settle, sameDraft.
    destruct (awaitResponse o); repeat split; reflexivity.
  - apply (draftWellFormed_same s); [| exact Hwf].
    unfold sameDraft. repeat split; reflexivity.
  - apply (draftWellFormed_same s); [| exact Hwf].
    unfold handlePersist_settle, sameDraft.
    destruct (awaitResponse o); repeat split; reflexivity.
Qed.

(** X10. In every state the form can reach, no weekday and no date is listed
    twice among the exclusions, Sunday and Saturday are excluded while
    weekends are off, and the start date is not empty. So every request body
    carries a start date, exclusion lists without duplicates and, with
    [include_weekends] false, both 0 and 6 among the excluded weekdays. *)
Theorem live_draft_and_request (s : State) :
  live s ->
  draftWellFormed s /\
  exists start weekdays dates,
    start_date (requestBody s) = Some start /\ start <> EmptyString /\
    include_weekends (requestBody s) = Some (includeWeekends s) /\
    exclude_weekdays (requestBody s) = Some weekdays /\
    exclude_dates (requestBody s) = Some dates /\
    List.NoDup weekdays /\ List.NoDup dates /\
    (includeWeekends s = false -> In 0 weekdays /\ In 6 weekdays).
Proof.
  intros Hlive.
  assert (Hwf : draftWellFormed s).
  { induction Hlive as [cid now today Hiso | s s' _ IH Hev].
    - pose proof (isISODate_nonempty today Hiso) as Hne.
      split_draft.
      + simpl. repeat constructor; simpl; intuition discriminate.
      + simpl. constructor.
      + intros _. simpl. auto.
      + simpl. exact Hne.
    - exact (event_keeps_draftWellFormed s s' Hev IH). }
  split; [exact Hwf |].
  destruct Hwf as (Hw & Hd & Hc & Hs).
  exists (startDate s), (excludeWeekdays s), (excludeDates s).
  unfold requestBody. simpl.
  rewrite (proj2 (String.eqb_neq _ _) Hs).
  split; [reflexivity |]. split; [exact Hs |].
  repeat (split; [reflexivity |]).
  split; [exact Hw |]. split; [exact Hd | exact Hc].
Qed.

Lemma live_draft_and_request_witness :
  draftWellFormed
    (handleDateClick "2025-01-08"
       (mount "2025-01-06" (initialState (Some "7") 0))).
Proof.
  apply (live_draft_and_request
           (handleDateClick "2025-01-08"
              (mount "2025-01-06" (initialState (Some "7") 0)))).
  eapply live_event; [| apply event_date].
  apply live_mount. reflexivity.
Defined.

(** *** The calendar grid *)

Lemma cellClasses_cases (m t : bool) (d : string) (w : Z) (s : State) :
  cellClasses m t d w s
  = [baseClass; if m then "text-slate-50" else "text-slate-500"]
      ++ (if t then [todayClass] else [])
      ++ (if isExcluded d w s then [excludedClass]
          else (match scheduledDay d s with
                | Some _ => [scheduledClass]
                | None => []
                end)
                 ++ (if t then [] else [hoverClass])).
Proof.
  unfold cellClasses, classWhen.
  destruct (isExcluded d w s), t, (scheduledDay d s); reflexivity.
Qed.

(** X11. A cell carries the excluded class exactly when its date or its weekday
    is excluded, the scheduled class exactly when the index holds its date
    and it is not excluded, and the hover class exactly when it is neither
    today nor excluded. So no cell is marked both scheduled and excluded,
    and no excluded cell invites a click. *)
Theorem cellClasses_marks (m t : bool) (d : string) (w : Z) (s : State) :
  (In excludedClass (cellClasses m t d w s) <-> isExcluded d w s = true) /\
  (In scheduledClass (cellClasses m t d w s) <->
   is_Some (scheduledDay d s) /\ isExcluded d w s = false) /\
  (In hoverClass (cellClasses m t d w s) <->
   t = false /\ isExcluded d w s = false) /\
  (In todayClass (cellClasses m t d w s) <-> t = true) /\
  ~ (In scheduledClass (cellClasses m t d w s) /\
     In excludedClass (cellClasses m t d w s)) /\
  ~ (In hoverClass (cellClasses m t d w s) /\
     In excludedClass (cellClasses m t d w s)).
Proof.
  assert (Hiffs :
            (In excludedClass (cellClasses m t d w s)
             <-> isExcluded d w s = true) /\
            (In scheduledClass (cellClasses m t d w s)
             <-> is_Some (scheduledDay d s) /\ isExcluded d w s = false) /\
            (In hoverClass (cellClasses m t d w s)
             <-> t = false /\ isExcluded d w s = false) /\
            (In todayClass (cellClasses m t d w s) <-> t = true)).
  { rewrite cellClasses_cases.
    destruct (isExcluded d w s), t, m, (scheduledDay d s) as [day |];
      simpl; unfold is_Some;
      repeat split; intros;
      repeat match goal with
             | H : _ \/ _ |- _ => destruct H
             | H : _ /\ _ |- _ => destruct H
             | H : ex _ |- _ => destruct H
             | H : False |- _ => destruct H
             end;
      try discriminate; try tauto; eauto 8. }
  destruct Hiffs as (He & Hs & Hh & Ht).
  split; [exact He |]. split; [exact Hs |]. split; [exact Hh |].
  split; [exact Ht |]. split.
  - intros [A B]. apply Hs in A. apply He in B. destruct A. congruence.
  - intros [A B]. apply Hh in A. apply He in B. destruct A. congruence.
Qed.

Lemma cellClasses_marks_witness :
  In excludedClass (cellClasses true false "2025-01-05" 0 showingMonday).
Proof.
  apply (proj1 (cellClasses_marks true false "2025-01-05" 0 showingMonday)).
  reflexivity.
Defined.

(** X12. A click on a scheduled cell that is not excluded turns it from scheduled
    to excluded without taking the day out of the index, and a second click
    gives the cell its former classes back. *)
Theorem cell_click_marks (m t : bool) (d : string) (w : Z) (s : State)
        (day : ScheduleDay) :
  scheduledDay d s = Some day ->
  isExcluded d w s = false ->
  In scheduledClass (cellClasses m t d w s) /\
  In excludedClass (cellClasses m t d w (handleDateClick d s)) /\
  ~ In scheduledClass (cellClasses m t d w (handleDateClick d s)) /\
  scheduledDay d (handleDateClick d s) = Some day /\
  cellClasses m t d w (handleDateClick d (handleDateClick d s))
  = cellClasses m t d w s.
Proof.
  intros Hday Hex.
  assert (Hnin : ~ In d (excludeDates s)).
  { unfold isExcluded in Hex. apply orb_false_iff in Hex.
    now apply includesS_not_In. }
  assert (Hex' : isExcluded d w (handleDateClick d s) = true).
  { rewrite (handleDateClick_absent d s Hnin). unfold isExcluded. simpl.
    apply orb_true_iff. left. apply includesS_In, in_app_iff.
    right. now left. }
  assert (Hday' : scheduledDay d (handleDateClick d s) = Some day)
    by exact Hday.
  split; [| split; [| split; [| split]]].
  - rewrite cellClasses_cases, Hex, Hday. destruct t; simpl; auto.
  - rewrite cellClasses_cases, Hex'. destruct t; simpl; auto.
  - rewrite cellClasses_cases, Hex'.
    destruct t, m; simpl; intuition discriminate.
  - exact Hday'.
  - now rewrite (handleDateClick_undo d s Hnin).
Qed.

Lemma cell_click_marks_witness :
  In excludedClass
    (cellClasses true false "2025-01-06" 1
       (handleDateClick "2025-01-06" showingMonday)) /\
  In scheduledClass
    (cellClasses true false "2025-01-06" 1
       (handleDateClick "2025-01-06"
          (handleDateClick "2025-01-06" showingMonday))).
Proof.
  destruct (cell_click_marks true false "2025-01-06" 1 showingMonday monday
              showingMonday_scheduled eq_refl) as (H1 & H2 & _ & _ & H5).
  split; [exact H2 |]. rewrite H5. exact H1.
Defined.

(** X13. The detail box of a cell shows an entry of the index and nothing else.
    Entering a scheduled cell opens its box and no other; entering a cell
    without a scheduled day changes nothing; leaving a cell, or starting a
    generate call, closes every box. *)
Theorem tooltip_follows_hover (d : string) (s : State) :
  (forall day, tooltip d s = Some day -> scheduledDay d s = Some day) /\
  (forall day,
     scheduledDay d s = Some day ->
     tooltip d (handleMouseEnter d s) = Some day /\
     forall d', d' <> d -> tooltip d' (handleMouseEnter d s) = None) /\
  (scheduledDay d s = None -> handleMouseEnter d s = s) /\
  tooltip d (handleMouseLeave s) = None /\
  tooltip d (handleSubmit_start s) = None.
Proof.
  split; [| split; [| split; [| split]]].
  - intros day. unfold tooltip. destruct (hoveredDate s) as [h |];
      [| discriminate].
    destruct (String.eqb h d); [auto | discriminate].
  - intros day Hday. unfold handleMouseEnter. rewrite Hday. split.
    + unfold tooltip. simpl. rewrite String.eqb_refl. exact Hday.
    + intros d' Hne. unfold tooltip. simpl.
      destruct (String.eqb_spec d d') as [-> | _]; [congruence | reflexivity].
  - intros Hnone. unfold handleMouseEnter. now rewrite Hnone.
  - reflexivity.
  - unfold tooltip, handleSubmit_start. simpl.
    destruct (hoveredDate s) as [h |]; [| reflexivity].
    destruct (String.eqb h d); [| reflexivity].
    unfold scheduledDay. simpl. apply lookup_empty.
Qed.

Lemma tooltip_follows_hover_witness :
  tooltip "2025-01-06" (handleMouseEnter "2025-01-06" showingMonday)
  = Some monday /\
  handleMouseEnter "2025-01-07" showingMonday = showingMonday.
Proof.
  destruct (tooltip_follows_hover "2025-01-06" showingMonday)
    as (_ & H & _).
  split; [apply (H monday showingMonday_scheduled) |].
  apply (proj1 (proj2 (proj2
           (tooltip_follows_hover "2025-01-07" showingMonday)))).
  exact scheduleMap_monday_only.
Defined.

End BuilderExtras.

(** * The saved-schedule card: further properties *)

Module RendererExtras.
Import Renderer RendererProofs.

(** *** Loading *)

(** X14. A load that fails keeps the day list, the time zone and the selection,
    logs the error once and lowers the loading flag; when it is the first
    load, the card shows "No schedule". *)
Theorem failed_load_keeps_state (localeCompare : string -> string -> Z)
        (today : string) (o : FetchOutcome) (s : State) :
  fetch_failed o = true ->
  exists err,
    awaitResponse o = inl err /\
    load localeCompare today o s
    = setIsLoading false
        (consoleError "Failed to load saved schedule:" err
           (setIsLoading true s)) /\
    days (load localeCompare today o s) = days s /\
    timezone (load localeCompare today o s) = timezone s /\
    currentIndex (load localeCompare today o s) = currentIndex s /\
    forall cid formatDay today' tomorrow,
      s = initialState cid ->
      headerLabel formatDay today' tomorrow (load localeCompare today o s)
      = "No schedule" /\
      body (load localeCompare today o s) = BodyNoSchedule.
Proof.
  intros Hfail. unfold fetch_failed in Hfail.
  destruct (awaitResponse o) as [err | data] eqn:E; [| discriminate].
  exists err. split; [reflexivity |].
  unfold load, load_settle. rewrite E.
  repeat (split; [reflexivity |]).
  intros cid formatDay today' tomorrow ->. split; reflexivity.
Qed.

Lemma failed_load_keeps_state_witness :
  days (load codeUnitCompare "2025-01-07" (FetchResolves 404 (JsonRejects "none"))
          (showing [tuesday; wednesday] 1 (initialState "7")))
  = [tuesday; wednesday].
Proof.
  destruct (failed_load_keeps_state codeUnitCompare "2025-01-07"
              (FetchResolves 404 (JsonRejects "none"))
              (showing [tuesday; wednesday] 1 (initialState "7")) eq_refl)
    as (err & _ & _ & H & _).
  exact H.
Defined.

(** X15. A successful load whose response has no schedule, or a schedule without
    days, empties the card whatever it showed before: no day is current and
    the card shows "No schedule". The time zone after a successful load is
    never empty; it is "UTC" when the response names none. *)
Theorem empty_response_resets (localeCompare : string -> string -> Z)
        (today : string) (o : FetchOutcome) (data : ApiResponse) (s : State) :
  awaitResponse o = inr data ->
  timezone (load localeCompare today o s) <> EmptyString /\
  (schedule data = None -> timezone (load localeCompare today o s) = "UTC") /\
  (responseDays data = [] ->
   days (load localeCompare today o s) = [] /\
   currentIndex (load localeCompare today o s) = 0 /\
   currentDay (load localeCompare today o s) = None /\
   body (load localeCompare today o s) = BodyNoSchedule /\
   forall formatDay today' tomorrow,
     headerLabel formatDay today' tomorrow (load localeCompare today o s)
     = "No schedule").
Proof.
  intros Hok. unfold load, load_settle. rewrite Hok. simpl.
  split; [| split].
  - unfold responseTimezone. destruct (schedule data) as [sch |];
      [| discriminate].
    destruct (String.eqb_spec (schedule_timezone sch) EmptyString);
      [discriminate | assumption].
  - intros Hnone. unfold responseTimezone. now rewrite Hnone.
  - intros Hempty. unfold currentDay, body, headerLabel, currentDay.
    simpl. rewrite Hempty. simpl. repeat split; reflexivity.
Qed.

Lemma empty_response_resets_witness :
  days (load codeUnitCompare "2025-01-07"
          (FetchResolves 200 (JsonResolves {| schedule := None |}))
          (showing [tuesday; wednesday] 1 (initialState "7")))
  = [].
Proof.
  destruct (empty_response_resets codeUnitCompare "2025-01-07"
              (FetchResolves 200 (JsonResolves {| schedule := None |}))
              {| schedule := None |}
              (showing [tuesday; wednesday] 1 (initialState "7")) eq_refl)
    as (_ & _ & H).
  apply (H eq_refl).
Defined.

(** *** The selection stays on the list *)

Lemma index_Some_range {A : Type} (l : list A) (k : Z) (d : A) :
  index l k = Some d -> 0 <= k < Z.of_nat (length l).
Proof.
  unfold index. destruct (Z.ltb_spec k 0) as [Hneg | Hpos]; [discriminate |].
  intros Hk. apply lookup_lt_Some in Hk. lia.
Qed.

Lemma index_in_range {A : Type} (l : list A) (k : Z) :
  0 <= k < Z.of_nat (length l) -> is_Some (index l k).
Proof.
  intros Hk. unfold index. destruct (Z.ltb_spec k 0); [lia |].
  apply lookup_lt_is_Some. lia.
Qed.

Lemma findIndex_range {A : Type} (p : A -> bool) (l : list A) :
  findIndex p l = -1 \/ 0 <= findIndex p l < Z.of_nat (length l).
Proof.
  destruct (findIndex_cases p l) as [[E _] | (_ & (d & Hd & _) & _)].
  - now left.
  - right. exact (index_Some_range _ _ _ Hd).
Qed.

Lemma initialSelection_range (l : list ScheduleDay) (today : string) :
  0 <= initialSelection l today < Z.max 1 (Z.of_nat (length l)).
Proof.
  unfold initialSelection.
  destruct (findIndex_range (onDate today) l) as [E | H].
  - rewrite E. simpl.
    destruct (findIndex_range (afterDate today) l) as [E' | H']; lia.
  - destruct (Z.eqb_spec (findIndex (onDate today) l) (-1)); lia.
Qed.

Lemma jump_range (p : ScheduleDay -> bool) (l : list ScheduleDay) :
  0 <= Z.max 0 (if findIndex p l =? -1 then 0 else findIndex p l)
  < Z.max 1 (Z.of_nat (length l)).
Proof.
  destruct (findIndex_range p l) as [E | H].
  - rewrite E. simpl. lia.
  - destruct (Z.eqb_spec (findIndex p l) (-1)); lia.
Qed.

Lemma event_keeps_selectionInRange (localeCompare : string -> string -> Z)
      (s s' : State) :
  event localeCompare s s' -> selectionInRange s -> selectionInRange s'.
Proof.
  unfold selectionInRange.
  intros Hev Hin.
  destruct Hev as [s | today o s | s | s | t s | t s | t s].
  - exact Hin.
  - unfold load_settle. destruct (awaitResponse o) as [err | data]; simpl.
    + exact Hin.
    + apply initialSelection_range.
  - unfold prev, canPrev. destruct (Z.ltb_spec 0 (currentIndex s)); simpl; lia.
  - unfold next, canNext.
    destruct (Z.ltb_spec (currentIndex s)
                (Z.max 0 (Z.of_nat (length (days s)) - 1))); simpl; lia.
  - unfold goToday. destruct (length (days s) =? 0)%nat; [exact Hin |].
    simpl. apply jump_range.
  - unfold goTomorrow. destruct (length (days s) =? 0)%nat; [exact Hin |].
    simpl. apply jump_range.
  - unfold goUpcoming. destruct (length (days s) =? 0)%nat; [exact Hin |].
    simpl. apply jump_range.
Qed.

(** X16. In every state the card can reach, whatever the responses and the
    clicks, the selection is an index of the day list: a day is current
    exactly when the list is not empty, and on the empty list the selection
    is 0. *)
Theorem live_selection_in_range (localeCompare : string -> string -> Z)
        (s : State) :
  live localeCompare s ->
  selectionInRange s /\
  (days s <> [] -> is_Some (currentDay s)) /\
  (days s = [] -> currentIndex s = 0 /\ currentDay s = None).
Proof.
  intros Hlive.
  assert (Hin : selectionInRange s).
  { induction Hlive as [cid | s s' _ IH Hev].
    - unfold selectionInRange. simpl. lia.
    - exact (event_keeps_selectionInRange localeCompare s s' Hev IH). }
  split; [exact Hin |]. unfold selectionInRange in Hin. split.
  - intros Hne. apply index_in_range.
    destruct (days s); [congruence | simpl length in *; lia].
  - intros Hnil. rewrite Hnil in Hin. simpl in Hin.
    assert (E : currentIndex s = 0) by lia.
    split; [exact E |]. unfold currentDay. rewrite Hnil, E. reflexivity.
Qed.

Lemma live_selection_in_range_witness :
  is_Some
    (currentDay
       (next (load codeUnitCompare "2025-01-07" unsortedResponse
                (initialState "7")))).
Proof.
  apply (live_selection_in_range codeUnitCompare
           (next (load codeUnitCompare "2025-01-07" unsortedResponse
                    (initialState "7")))).
  - eapply live_event; [| apply event_next].
    eapply live_event; [| apply event_load_settle].
    eapply live_event; [| apply event_load_start].
    apply live_init.
  - discriminate.
Defined.

(** *** Walking through the list *)

(** X17. With the selection on the list, a step forward that moved is undone by
    a step back, and a step back that moved is undone by a step forward. *)
Theorem prev_next_inverse (s : State) :
  selectionInRange s ->
  (canNext s = true -> prev (next s) = s) /\
  (canPrev s = true -> next (prev s) = s).
Proof.
  unfold selectionInRange. intros Hin. split.
  - intros Hn. unfold next. rewrite Hn. unfold prev, canPrev. simpl.
    destruct (Z.ltb_spec 0 (currentIndex s + 1)); [| lia].
    replace (currentIndex s + 1 - 1) with (currentIndex s) by lia.
    destruct s; reflexivity.
  - intros Hp. unfold prev. rewrite Hp. unfold canPrev in Hp.
    apply Z.ltb_lt in Hp. unfold next, canNext. simpl.
    destruct (Z.ltb_spec (currentIndex s - 1)
                (Z.max 0 (Z.of_nat (length (days s)) - 1))); [| lia].
    replace (currentIndex s - 1 + 1) with (currentIndex s) by lia.
    destruct s; reflexivity.
Qed.

Lemma prev_next_inverse_witness :
  prev (next (showing [tuesday; wednesday] 0 (initialState "7")))
  = showing [tuesday; wednesday] 0 (initialState "7").
Proof.
  assert (Hin : selectionInRange
                  (showing [tuesday; wednesday] 0 (initialState "7")))
    by (unfold selectionInRange; simpl; lia).
  apply (proj1 (prev_next_inverse
                  (showing [tuesday; wednesday] 0 (initialState "7")) Hin)).
  reflexivity.
Defined.

Lemma next_step (s : State) :
  selectionInRange s ->
  selectionInRange (next s) /\ days (next s) = days s /\
  currentIndex (next s)
  = Z.min (currentIndex s + 1) (Z.max 0 (Z.of_nat (length (days s)) - 1)).
Proof.
  unfold selectionInRange, next, canNext. intros Hin.
  destruct (Z.ltb_spec (currentIndex s)
              (Z.max 0 (Z.of_nat (length (days s)) - 1))); simpl;
    repeat split; lia.
Qed.

Lemma prev_step (s : State) :
  selectionInRange s ->
  selectionInRange (prev s) /\ days (prev s) = days s /\
  currentIndex (prev s) = Z.max (currentIndex s - 1) 0.
Proof.
  unfold selectionInRange, prev, canPrev. intros Hin.
  destruct (Z.ltb_spec 0 (currentIndex s)); simpl; repeat split; lia.
Qed.

Lemma next_steps (n : nat) (s : State) :
  selectionInRange s ->
  selectionInRange (Nat.iter n next s) /\
  days (Nat.iter n next s) = days s /\
  currentIndex (Nat.iter n next s)
  = Z.min (currentIndex s + Z.of_nat n)
      (Z.max 0 (Z.of_nat (length (days s)) - 1)).
Proof.
  intros Hin. induction n as [| n (IHr & IHd & IHc)].
  - split; [exact Hin | split; [reflexivity |]].
    unfold selectionInRange in Hin. simpl Nat.iter. lia.
  - rewrite Nat.iter_succ.
    destruct (next_step _ IHr) as (Hr & Hd & Hc).
    split; [exact Hr |]. split; [congruence |].
    rewrite Hc, IHd, IHc. lia.
Qed.

Lemma prev_steps (n : nat) (s : State) :
  selectionInRange s ->
  selectionInRange (Nat.iter n prev s) /\
  days (Nat.iter n prev s) = days s /\
  currentIndex (Nat.iter n prev s) = Z.max (currentIndex s - Z.of_nat n) 0.
Proof.
  intros Hin. induction n as [| n (IHr & IHd & IHc)].
  - split; [exact Hin | split; [reflexivity |]].
    unfold selectionInRange in Hin. simpl Nat.iter. lia.
  - rewrite Nat.iter_succ.
    destruct (prev_step _ IHr) as (Hr & Hd & Hc).
    split; [exact Hr |]. split; [congruence |].
    rewrite Hc, IHc. lia.
Qed.

(** X18. With the selection on the list, [n] steps forward move it [n] positions
    or to the last day, whichever comes first, and [n] steps back move it
    [n] positions or to the first day; the list is the same afterwards. So
    every day of the list can be walked to from every selection. *)
Theorem steps_reach_every_day (n : nat) (s : State) :
  selectionInRange s ->
  currentIndex (Nat.iter n next s)
  = Z.min (currentIndex s + Z.of_nat n)
      (Z.max 0 (Z.of_nat (length (days s)) - 1)) /\
  currentIndex (Nat.iter n prev s) = Z.max (currentIndex s - Z.of_nat n) 0 /\
  days (Nat.iter n next s) = days s /\
  days (Nat.iter n prev s) = days s /\
  forall k,
    0 <= k < Z.of_nat (length (days s)) ->
    currentIndex (Nat.iter (Z.to_nat (k - currentIndex s)) next
                    (Nat.iter (Z.to_nat (currentIndex s - k)) prev s)) = k.
Proof.
  intros Hin.
  destruct (next_steps n s Hin) as (_ & Hnd & Hnc).
  destruct (prev_steps n s Hin) as (_ & Hpd & Hpc).
  repeat (split; [assumption |]).
  intros k Hk.
  destruct (prev_steps (Z.to_nat (currentIndex s - k)) s Hin)
    as (Hr & Hd & Hc).
  destruct (next_steps (Z.to_nat (k - currentIndex s)) _ Hr) as (_ & _ & Hc').
  rewrite Hc', Hd, Hc. unfold selectionInRange in Hin. lia.
Qed.

Lemma steps_reach_every_day_witness :
  currentIndex
    (Nat.iter 5 next (showing [tuesday; wednesday] 0 (initialState "7")))
  = 1.
Proof.
  assert (Hin : selectionInRange
                  (showing [tuesday; wednesday] 0 (initialState "7")))
    by (unfold selectionInRange; simpl; lia).
  destruct (steps_reach_every_day 5
              (showing [tuesday; wednesday] 0 (initialState "7")) Hin)
    as [H _].
  exact H.
Defined.

(** *** More on sorting *)

Section MoreCollation.

Variable localeCompare : string -> string -> Z.
Hypothesis collates : collatesDates localeCompare.

Lemma sortDays_of_sorted (ds : list ScheduleDay) :
  allISO ds -> sortedByDate ds -> sortDays localeCompare ds = ds.
Proof.
  unfold sortDays. intros Hiso Hs.
  induction Hs as [| x l Hs IH Hall]; [reflexivity |].
  apply List.Forall_cons_iff in Hiso. destruct Hiso as [Hx Hiso].
  simpl. rewrite (IH Hiso). destruct l as [| y l']; [reflexivity |].
  simpl. apply List.Forall_cons_iff in Hiso. destruct Hiso as [Hy _].
  rewrite (localeCompare_leb localeCompare collates _ _ Hx Hy).
  apply List.Forall_cons_iff in Hall. destruct Hall as [Hxy _].
  unfold date_le in Hxy. now rewrite Hxy.
Qed.

Lemma sortInsert_keeps_same_date (k : string) (x : ScheduleDay)
      (l : list ScheduleDay) :
  isISODate (date x) = true -> allISO l ->
  List.filter (onDate k)
    (sortInsert (fun a b => localeCompare (date a) (date b)) x l)
  = List.filter (onDate k) (x :: l).
Proof.
  intros Hx Hiso. induction l as [| y l IH]; [reflexivity |].
  apply List.Forall_cons_iff in Hiso. destruct Hiso as [Hy Hiso].
  cbn [sortInsert]. rewrite (localeCompare_leb localeCompare collates _ _ Hx Hy).
  destruct (String.leb (date x) (date y)) eqn:Hxy; [reflexivity |].
  assert (Hne : date x <> date y).
  { intros E. rewrite E in Hxy. rewrite leb_refl in Hxy. discriminate. }
  cbn [List.filter]. rewrite (IH Hiso). cbn [List.filter].
  unfold onDate.
  destruct (String.eqb_spec (date x) k) as [Ex | Nx];
    destruct (String.eqb_spec (date y) k) as [Ey | Ny];
    try reflexivity.
  congruence.
Qed.

End MoreCollation.

(** X20. Sorting on load disturbs as little as it can: a response already sorted
    by date is stored as it came, sorting twice is sorting once, and days
    that share a date stay in the order of the response. [localeCompare] is
    taken to order dates as their code units do. *)
Theorem sortDays_is_stable (localeCompare : string -> string -> Z)
        (ds : list ScheduleDay) :
  collatesDates localeCompare ->
  allISO ds ->
  (sortedByDate ds -> sortDays localeCompare ds = ds) /\
  sortDays localeCompare (sortDays localeCompare ds)
  = sortDays localeCompare ds /\
  forall k,
    List.filter (onDate k) (sortDays localeCompare ds)
    = List.filter (onDate k) ds.
Proof.
  intros Hcol Hiso. split; [| split].
  - now apply sortDays_of_sorted.
  - apply sortDays_of_sorted; [exact Hcol | | now apply sortDays_sorted].
    apply (allISO_Permutation ds); [apply sort_Permutation | exact Hiso].
  - intros k. unfold sortDays.
    induction ds as [| x ds IH]; [reflexivity |].
    apply List.Forall_cons_iff in Hiso. destruct Hiso as [Hx Hiso].
    cbn [sort].
    rewrite (sortInsert_keeps_same_date localeCompare Hcol k x _ Hx)
      by (apply (allISO_Permutation ds); [apply sort_Permutation | exact Hiso]).
    cbn [List.filter]. now rewrite (IH Hiso).
Qed.

Lemma sortDays_is_stable_witness :
  sortDays codeUnitCompare [tuesday; wednesday] = [tuesday; wednesday].
Proof.
  assert (Hiso : allISO [tuesday; wednesday]) by (repeat constructor).
  assert (Hsorted : sortedByDate [tuesday; wednesday]) by (repeat constructor).
  apply (proj1 (sortDays_is_stable codeUnitCompare [tuesday; wednesday]
                  codeUnitCompare_collates Hiso)).
  exact Hsorted.
Defined.

End RendererExtras.
